(** * 4:3 to 16:9 converter: a shallow embedding of [4.3.py]

    The script locates (or downloads) ffmpeg and runs one fixed command line
    against it.  Everything it does is a sequence of calls into the operating
    system, so the embedding is a small state-and-exception monad over an
    abstract operating system, which also records the calls that were made.
    Python strings are lists of characters. *)

From Stdlib Require Import String Ascii List ZArith Lia Bool.
Import ListNotations.

Local Open Scope list_scope.
Local Open Scope Z_scope.

(** ** Strings *)

Definition str := list ascii.

(** A string literal of the script. *)
Definition lit (s : string) : str := list_ascii_of_string s.

Definition nl : str := ["010"%char].
Definition dquote : ascii := "034"%char.
Definition squote : ascii := "039"%char.
Definition dot : ascii := "."%char.

Definition str_eqb (a b : str) : bool :=
  if list_eq_dec ascii_dec a b then true else false.

Definition mem (c : ascii) (cs : str) : bool := existsb (Ascii.eqb c) cs.

(** [s.startswith(prefix)] *)
Fixpoint startswith (s prefix : str) : bool :=
  match prefix, s with
  | [], _ => true
  | _ :: _, [] => false
  | c :: prefix', d :: s' => Ascii.eqb c d && startswith s' prefix'
  end.

(** [s.lstrip(chars)], [s.rstrip(chars)] and [s.strip(chars)]: drop the
    characters of [chars] from the left end, the right end, and both. *)
Fixpoint lstrip (chars s : str) : str :=
  match s with
  | [] => []
  | c :: s' => if mem c chars then lstrip chars s' else s
  end.

Definition rstrip (chars s : str) : str := rev (lstrip chars (rev s)).

Definition strip (chars s : str) : str := rstrip chars (lstrip chars s).

(** [s.rfind(c)] for a one-character [c]: the highest index of [c] in [s],
    or -1. *)
Fixpoint rfind (c : ascii) (s : str) : Z :=
  match s with
  | [] => -1
  | x :: s' =>
      let r := rfind c s' in
      if 0 <=? r then r + 1 else if Ascii.eqb x c then 0 else -1
  end.

(** The slices [s[:i]], [s[i:]] and [s[i:j]] for indices that are not
    negative (the only ones the path functions below build). *)
Definition upto (i : Z) (s : str) : str := firstn (Z.to_nat i) s.
Definition from (i : Z) (s : str) : str := skipn (Z.to_nat i) s.
Definition slice (i j : Z) (s : str) : str := upto (j - i) (from i s).

(** ** [os.path]

    The module is [posixpath] or [ntpath], by the platform. *)

Inductive flavour := Posix | Nt.

Definition sep (fl : flavour) : ascii :=
  match fl with Posix => "/"%char | Nt => "\"%char end.

Definition altsep (fl : flavour) : option ascii :=
  match fl with Posix => None | Nt => Some "/"%char end.

Definition is_sep (fl : flavour) (c : ascii) : bool :=
  Ascii.eqb c (sep fl) ||
  match altsep fl with Some a => Ascii.eqb c a | None => false end.

(** The loop of [genericpath._splitext] that skips the leading dots of the
    base name: [n] bounds the iterations left ([dotIndex - filenameIndex]);
    the result is [true] when the loop leaves through its [return], at a
    character that is not a dot. *)
Fixpoint skip_leading_dots (n : nat) (p : str) (filenameIndex : Z) : bool :=
  match n with
  | O => false
  | S n' =>
      if str_eqb (slice filenameIndex (filenameIndex + 1) p) [dot]
      then skip_leading_dots n' p (filenameIndex + 1)
      else true
  end.

(** [genericpath._splitext(p, sep, altsep, extsep)] with [extsep = '.']. *)
Definition _splitext (p : str) (sep : ascii) (altsep : option ascii)
  : str * str :=
  let sepIndex := rfind sep p in
  let sepIndex :=
    match altsep with
    | Some a => Z.max sepIndex (rfind a p)
    | None => sepIndex
    end in
  let dotIndex := rfind dot p in
  if (sepIndex <? dotIndex)
     && skip_leading_dots (Z.to_nat (dotIndex - (sepIndex + 1))) p (sepIndex + 1)
  then (upto dotIndex p, from dotIndex p)
  else (p, []).

(** [os.path.splitext] *)
Definition splitext (fl : flavour) (p : str) : str * str :=
  _splitext p (sep fl) (altsep fl).

(** [posixpath.basename]: what follows the last slash.  ([ntpath.basename]
    first sets the drive or UNC prefix aside; the script only prints base
    names, and the environment of a run says which function it has.) *)
Definition posix_basename (p : str) : str :=
  let i := rfind "/"%char p + 1 in
  from i p.

(** A character of the 7-bit ASCII set. *)
Definition is_ascii (c : ascii) : bool := (nat_of_ascii c <? 128)%nat.

(** One step of [os.path.join]: a component that starts with a separator
    replaces the path so far, any other one is appended, after a separator
    unless the path so far is empty or ends in one.  ([ntpath] also keeps
    track of drives; the script joins drive-less names onto the absolute
    directory of the script.) *)
Definition join2 (fl : flavour) (path b : str) : str :=
  match b with
  | c :: _ =>
      if is_sep fl c then b
      else match rev path with
           | [] => b
           | l :: _ => if is_sep fl l then path ++ b else path ++ sep fl :: b
           end
  | [] =>
      match rev path with
      | [] => b
      | l :: _ => if is_sep fl l then path else path ++ [sep fl]
      end
  end.

(** [os.path.join(a, *p)] *)
Definition join (fl : flavour) (a : str) (p : list str) : str :=
  fold_left (join2 fl) p a.

(** Lines 126-127 of [convert_video]:
    [filename, ext = os.path.splitext(input_path)] and
    [output_path = f"{filename}_16-9{ext}"]. *)
Definition output_path (fl : flavour) (input_path : str) : str :=
  let '(filename, ext) := splitext fl input_path in
  filename ++ lit "_16-9" ++ ext.

(** Line 181 of [main]: the argument is stripped of double quotes, then of
    single quotes ([strip] called twice, each with a one-character set). *)
Definition clean_path (input_path : str) : str :=
  strip [squote] (strip [dquote] input_path).

(** ** Exceptions, results and the record of what was done *)

(** The classes of exception the script tells apart: its first [try] names
    [CalledProcessError] and [FileNotFoundError]; the other two handlers
    take any [Exception].  [OtherException] stands for every other subclass
    of [Exception] a library call can raise ([URLError], [BadZipFile],
    [OSError], ...).  What is not an [Exception] ([KeyboardInterrupt]) is
    left out. *)
Inductive exn_class :=
| CalledProcessError
| FileNotFoundError
| PermissionError
| OtherException (name : str).

(** An exception object: its class and the text [str(e)] gives. *)
Record exn := mk_exn { exn_class_of : exn_class; exn_str : str }.

Inductive res (A : Type) :=
| Ret (a : A)
| Raise (e : exn).
Arguments Ret {A} a.
Arguments Raise {A} e.

(** What the script did, in order: each line it printed and each call it
    made into the operating system, with the call's outcome. *)
Inductive event :=
| EPrint (line : str)
| EPrintRaised (line : str) (e : exn)
| EExists (path : str) (found : bool)
| EIsdir (path : str) (found : bool)
| ESpawn (argv : list str) (outcome : res (Z * str))
| EUrlretrieve (url filename : str) (outcome : res unit)
| EExtractall (archive dest : str) (outcome : res unit)
| EListdir (path : str) (outcome : res (list str))
| ERmtree (path : str) (outcome : res unit)
| ERename (src dst : str) (outcome : res unit)
| ERemove (path : str) (outcome : res unit)
| EInput (prompt : str) (outcome : res str).

(** ** The environment of a run *)

(** What is fixed during a run. *)
Record env := {
  (** [platform.system()] *)
  platform_system : str;
  (** which [os.path] the interpreter loaded *)
  path_flavour : flavour;
  (** [os.path.dirname(os.path.abspath(__file__))] *)
  script_dir : str;
  (** [str(e)] of the [CalledProcessError] that [subprocess.run] builds
      for a command and its exit status *)
  called_process_error_str : list str -> Z -> str;
  (** [os.path.basename] of the interpreter *)
  path_basename : str -> str;
  (** how [text=True] turns captured bytes into text: the decoding of the
      locale with the translation of line ends, which gives the text or
      raises [UnicodeDecodeError] *)
  locale_decode : str -> res str
}.

(** The operating system (file system, network, child processes, console
    input) over a state [W].  The tests [os.path.exists], [os.path.isdir]
    and [os.listdir] read the state; the others may change it, also when
    they raise. *)
Record OS (W : Type) := {
  os_exists : W -> str -> bool;
  os_isdir : W -> str -> bool;
  os_listdir : W -> str -> res (list str);
  (** launch a child process and wait for it: its exit status and what it
      wrote to standard error, or the exception of a launch that failed *)
  os_spawn : W -> list str -> res (Z * str) * W;
  (** [urllib.request.urlretrieve(url, filename, reporthook)], progress
      display included *)
  os_urlretrieve : W -> str -> str -> res unit * W;
  (** open the archive and [extractall] into a directory *)
  os_extractall : W -> str -> str -> res unit * W;
  os_rmtree : W -> str -> res unit * W;
  os_rename : W -> str -> str -> res unit * W;
  os_remove : W -> str -> res unit * W;
  os_input : W -> str -> res str * W
}.
Arguments os_exists {W}.
Arguments os_isdir {W}.
Arguments os_listdir {W}.
Arguments os_spawn {W}.
Arguments os_urlretrieve {W}.
Arguments os_extractall {W}.
Arguments os_rmtree {W}.
Arguments os_rename {W}.
Arguments os_remove {W}.
Arguments os_input {W}.

(** The console [print] writes to: a line is taken, or the write raises
    (a [UnicodeEncodeError] when the encoding of the console has no
    character for the check mark or the ballot cross of the script's
    messages, an [OSError] when it is closed).  *)
Class Console (W : Type) := {
  console_write : W -> str -> res unit
}.

(** The console that takes every line.  A statement that names no console
    is about this one. *)
#[global] Instance console_accepts {W : Type} : Console W :=
  {| console_write := fun _ _ => Ret tt |}.

(** ** The monad: state of the operating system, exceptions, events *)

Definition M (W A : Type) : Type := W -> res A * W * list event.

Definition ret {W A} (a : A) : M W A := fun w => (Ret a, w, []).

Definition raise {W A} (e : exn) : M W A := fun w => (Raise e, w, []).

Definition bind {W A B} (m : M W A) (k : A -> M W B) : M W B :=
  fun w =>
    match m w with
    | (Ret a, w1, t1) =>
        let '(r, w2, t2) := k a w1 in (r, w2, t1 ++ t2)
    | (Raise e, w1, t1) => (Raise e, w1, t1)
    end.

(** [try: body except <classes chosen by handles> as e: handler(e)] *)
Definition try_except {W A} (body : M W A) (handles : exn -> bool)
    (handler : exn -> M W A) : M W A :=
  fun w =>
    match body w with
    | (Raise e, w1, t1) =>
        if handles e
        then let '(r, w2, t2) := handler e w1 in (r, w2, t1 ++ t2)
        else (Raise e, w1, t1)
    | done => done
    end.

Declare Scope py_scope.
Delimit Scope py_scope with py.
Notation "x <- m ;; k" := (bind m (fun x => k))
  (at level 100, m at next level, right associativity) : py_scope.
Notation "m ;; k" := (bind m (fun _ => k))
  (at level 100, right associativity) : py_scope.
Local Open Scope py_scope.

Definition outcome_of {W A} (x : res A * W * list event) : res A := fst (fst x).
Definition state_of {W A} (x : res A * W * list event) : W := snd (fst x).
Definition trace_of {W A} (x : res A * W * list event) : list event := snd x.

(** A computation that never lets an exception out. *)
Definition never_raises {W A} (m : M W A) : Prop :=
  forall w, exists a, outcome_of (m w) = Ret a.

(** A computation all of whose events satisfy [P]. *)
Definition all_events {W A} (P : event -> bool) (m : M W A) : Prop :=
  forall w, forallb P (trace_of (m w)) = true.

(** A computation out of which only exceptions with [P] come. *)
Definition raises_only {W A} (P : exn -> Prop) (m : M W A) : Prop :=
  forall w e, outcome_of (m w) = Raise e -> P e.

(** An exception that a write to the console [C] raises. *)
Definition from_console {W} (C : Console W) (e : exn) : Prop :=
  exists w line, console_write (Console := C) w line = Raise e.

(** An event that is not the launch of a child process. *)
Definition not_spawn (ev : event) : bool :=
  match ev with ESpawn _ _ => false | _ => true end.

(** [except Exception] *)
Definition any_exception (e : exn) : bool := true.

(** [except (subprocess.CalledProcessError, FileNotFoundError)] *)
Definition called_process_or_not_found (e : exn) : bool :=
  match exn_class_of e with
  | CalledProcessError | FileNotFoundError => true
  | _ => false
  end.

(** [s * n] for a string [s] *)
Fixpoint times (s : str) (n : nat) : str :=
  match n with O => [] | S n' => s ++ times s n' end.

Section Script.

Context {W : Type} {C : Console W}.
Variable E : env.
Variable O : OS W.

Let fl := path_flavour E.

(** *** Library calls

    Each one records its event. *)

Definition print (line : str) : M W unit :=
  fun w =>
    match console_write w line with
    | Ret _ => (Ret tt, w, [EPrint line])
    | Raise e => (Raise e, w, [EPrintRaised line e])
    end.

Definition path_exists (p : str) : M W bool :=
  fun w => let b := os_exists O w p in (Ret b, w, [EExists p b]).

Definition path_isdir (p : str) : M W bool :=
  fun w => let b := os_isdir O w p in (Ret b, w, [EIsdir p b]).

Definition listdir (p : str) : M W (list str) :=
  fun w => let r := os_listdir O w p in (r, w, [EListdir p r]).

Definition spawn (argv : list str) : M W (Z * str) :=
  fun w => let '(r, w') := os_spawn O w argv in (r, w', [ESpawn argv r]).

Definition urlretrieve (url filename : str) : M W unit :=
  fun w =>
    let '(r, w') := os_urlretrieve O w url filename in
    (r, w', [EUrlretrieve url filename r]).

Definition extractall (archive dest : str) : M W unit :=
  fun w =>
    let '(r, w') := os_extractall O w archive dest in
    (r, w', [EExtractall archive dest r]).

Definition rmtree (p : str) : M W unit :=
  fun w => let '(r, w') := os_rmtree O w p in (r, w', [ERmtree p r]).

Definition rename (src dst : str) : M W unit :=
  fun w => let '(r, w') := os_rename O w src dst in (r, w', [ERename src dst r]).

Definition remove (p : str) : M W unit :=
  fun w => let '(r, w') := os_remove O w p in (r, w', [ERemove p r]).

Definition input (prompt : str) : M W str :=
  fun w => let '(r, w') := os_input O w prompt in (r, w', [EInput prompt r]).

(** The decoding that [text=True] asks for. *)
Definition decode (raw : str) : M W str :=
  fun w => (locale_decode E raw, w, []).

(** [subprocess.run(argv, ..., check=check, text=text)]: the exit status
    and the standard error of the child.  With [text] the captured bytes
    are decoded while the child is waited for, and a decoding that fails
    raises out of the call, whatever the exit status; without it nothing
    is decoded (the version query captures nothing and its second
    component is not looked at).  Then, with [check], a status that is not
    zero raises [CalledProcessError]. *)
Definition subprocess_run (argv : list str) (check text : bool)
  : M W (Z * str) :=
  launched <- spawn argv ;;
  stderr <- (if text then decode (snd launched) else ret (snd launched)) ;;
  if check && negb (fst launched =? 0)
  then raise (mk_exn CalledProcessError
                (called_process_error_str E argv (fst launched)))
  else ret (fst launched, stderr).

(** The list comprehension of line 49, for a predicate that calls the
    operating system. *)
Fixpoint filterM (keep : str -> M W bool) (l : list str) : M W (list str) :=
  match l with
  | [] => ret []
  | f :: l' =>
      k <- keep f ;;
      rest <- filterM keep l' ;;
      ret (if k then f :: rest else rest)
  end.

(** *** The script *)

(** [get_ffmpeg_path()] *)
Definition get_ffmpeg_path : str :=
  let ffmpeg_dir := join fl (script_dir E) [lit "ffmpeg"] in
  if str_eqb (platform_system E) (lit "Windows")
  then join fl ffmpeg_dir [lit "bin"; lit "ffmpeg.exe"]
  else join fl ffmpeg_dir [lit "ffmpeg"].

Definition ffmpeg_url : str :=
  lit "https://www.gyan.dev/ffmpeg/builds/ffmpeg-release-essentials.zip".

(** [download_ffmpeg()] *)
Definition download_ffmpeg : M W bool :=
  print (nl ++ times (lit "=") 60) ;;
  print (lit "FFmpeg not found - downloading...") ;;
  print (times (lit "=") 60) ;;
  let ffmpeg_dir := join fl (script_dir E) [lit "ffmpeg"] in
  try_except
    (let system := platform_system E in
     if str_eqb system (lit "Windows") then
       let url := ffmpeg_url in
       let zip_path := join fl (script_dir E) [lit "ffmpeg.zip"] in
       print (lit "Downloading FFmpeg (this may take a few minutes)...") ;;
       urlretrieve url zip_path ;;
       print (nl ++ lit "Extracting FFmpeg...") ;;
       extractall zip_path (script_dir E) ;;
       names <- listdir (script_dir E) ;;
       extracted_folders <-
         filterM
           (fun f =>
              if startswith f (lit "ffmpeg-")
              then path_isdir (join fl (script_dir E) [f])
              else ret false)
           names ;;
       match extracted_folders with
       | first :: _ =>
           let extracted_path := join fl (script_dir E) [first] in
           present <- path_exists ffmpeg_dir ;;
           (if present then rmtree ffmpeg_dir else ret tt) ;;
           rename extracted_path ffmpeg_dir
       | [] => ret tt
       end ;;
       remove zip_path ;;
       print (lit "✓ FFmpeg downloaded and installed successfully!" ++ nl) ;;
       ret true
     else
       print (lit "Auto-download only works on Windows.") ;;
       print (lit "Please install ffmpeg manually:") ;;
       print (lit "  Mac: brew install ffmpeg") ;;
       print (lit "  Linux: sudo apt install ffmpeg") ;;
       ret false)
    any_exception
    (fun e =>
       print (nl ++ lit "✗ Error downloading FFmpeg: " ++ exn_str e) ;;
       print (nl ++ lit "Please install ffmpeg manually:") ;;
       print (lit "  Download from: https://ffmpeg.org/download.html") ;;
       ret false).

(** The version query of [check_ffmpeg]. *)
Definition version_query : list str := [lit "ffmpeg"; lit "-version"].

(** The three ways the version query can end, as [check_ffmpeg] tells them
    apart: exit status 0; a failure its [except] clause takes (another exit
    status, turned into [CalledProcessError] by [check=True], or a launch
    that raised one of the two classes named); any other exception. *)
Definition query_succeeded (r : res (Z * str)) : bool :=
  match r with
  | Ret (status, _) => status =? 0
  | Raise _ => false
  end.

Definition query_failed (r : res (Z * str)) : bool :=
  match r with
  | Ret (status, _) => negb (status =? 0)
  | Raise e => called_process_or_not_found e
  end.

(** [check_ffmpeg()]: the name or path of ffmpeg, or [None]. *)
Definition check_ffmpeg : M W (option str) :=
  on_path <-
    try_except
      (subprocess_run version_query true false ;; ret true)
      called_process_or_not_found
      (fun _ => ret false) ;;
  if on_path then ret (Some (lit "ffmpeg"))
  else
    let local_ffmpeg := get_ffmpeg_path in
    present <- path_exists local_ffmpeg ;;
    if present then ret (Some local_ffmpeg)
    else
      downloaded <- download_ffmpeg ;;
      if downloaded then
        let local_ffmpeg := get_ffmpeg_path in
        present <- path_exists local_ffmpeg ;;
        if present then ret (Some local_ffmpeg) else ret None
      else ret None.

(** The command of lines 135-142. *)
Definition command (ffmpeg_exe input_path output_path : str) : list str :=
  [ffmpeg_exe;
   lit "-i"; input_path;
   lit "-vf"; lit "scale=1920:1080,setsar=1";
   lit "-c:a"; lit "copy";
   lit "-y";
   output_path].

(** [convert_video(input_path)].  The test [if not ffmpeg_exe] is the
    [match]: [None] and the empty string are the values Python takes for
    false. *)
Definition convert_video (input_path : str) : M W bool :=
  present <- path_exists input_path ;;
  if negb present then
    print (lit "Error: File not found: " ++ input_path) ;;
    ret false
  else
    ffmpeg_exe <- check_ffmpeg ;;
    match ffmpeg_exe with
    | Some (c :: exe') =>
        let ffmpeg_exe := c :: exe' in
        let output_path := output_path fl input_path in
        print (lit "Converting: " ++ path_basename E input_path) ;;
        print (lit "Output will be: " ++ path_basename E output_path) ;;
        print (nl ++ lit "Processing... (this may take a while)") ;;
        let command := command ffmpeg_exe input_path output_path in
        try_except
          (result <- subprocess_run command false true ;;
           if fst result =? 0 then
             print (nl ++ lit "✓ Success! Converted video saved as:") ;;
             print (lit "  " ++ output_path) ;;
             ret true
           else
             print (nl ++ lit "✗ Conversion failed!") ;;
             print (lit "Error details:") ;;
             print (snd result) ;;
             ret false)
          any_exception
          (fun e =>
             print (nl ++ lit "✗ Error during conversion: " ++ exn_str e) ;;
             ret false)
    | _ =>
        print (nl ++ times (lit "!") 60) ;;
        print (lit "ERROR: Could not get ffmpeg!") ;;
        print (times (lit "!") 60) ;;
        ret false
    end.

(** [main()] on [sys.argv]; the result is the status handed to
    [sys.exit]. *)
Definition main (argv : list str) : M W Z :=
  print (times (lit "=") 60) ;;
  print (lit "4:3 to 16:9 Video Converter") ;;
  print (times (lit "=") 60) ;;
  print [] ;;
  match argv with
  | _ :: input_path :: _ =>
      let input_path := clean_path input_path in
      print (lit "Received file: " ++ input_path) ;;
      print [] ;;
      success <- convert_video input_path ;;
      print [] ;;
      input (lit "Press Enter to exit...") ;;
      ret (if success then 0 else 1)
  | _ =>
      print (lit "Usage: Drag and drop a video file onto this script") ;;
      print (lit "Or run: python script.py <video_file>") ;;
      input (nl ++ lit "Press Enter to exit...") ;;
      ret 1
  end.

(** How a run of the script ends: with the status [main] hands to
    [sys.exit], or, when an exception leaves [main], with a traceback. *)
Inductive ending :=
| Exits (status : Z)
| Traceback (e : exn).

Definition run_script (argv : list str) (w : W) : ending :=
  match outcome_of (main argv w) with
  | Ret status => Exits status
  | Raise e => Traceback e
  end.

End Script.

Arguments get_ffmpeg_path E : clear implicits.

(** What [subprocess.run(command, stderr=PIPE, text=True)] gives for an
    outcome of the launch: the status with the decoded text, or the
    exception of the launch or of the decoding. *)
Definition run_outcome (E : env) (r : res (Z * str)) : res (Z * str) :=
  match r with
  | Ret (status, raw) =>
      match locale_decode E raw with
      | Ret text => Ret (status, text)
      | Raise e => Raise e
      end
  | Raise e => Raise e
  end.

(** What [convert_video] prints after the child process, by what
    [subprocess.run] gave. *)
Definition conversion_report (out : str) (r : res (Z * str)) : list event :=
  match r with
  | Ret (status, err) =>
      if status =? 0
      then [EPrint (nl ++ lit "✓ Success! Converted video saved as:");
            EPrint (lit "  " ++ out)]
      else [EPrint (nl ++ lit "✗ Conversion failed!");
            EPrint (lit "Error details:");
            EPrint err]
  | Raise e => [EPrint (nl ++ lit "✗ Error during conversion: " ++ exn_str e)]
  end.

(** ** A simulated operating system

    A small operating system to run the script on: a list of the files and
    directories that exist, and the scripted behaviour of what lies outside
    (the programs on the search path, the network, the archive served, the
    console). *)

Module Sim.

Record world := {
  (** what exists: the path, and whether it is a directory *)
  nodes : list (str * bool);
  (** launching the version query of the bare name ffmpeg through the
      search path *)
  path_query : res (Z * str);
  (** launching anything else: the conversion *)
  conversion : res (Z * str);
  (** the download *)
  fetch : res unit;
  (** the paths that extracting the downloaded archive creates *)
  archive : res (list (str * bool));
  (** a line typed at the console *)
  stdin : res str
}.

Definition with_nodes (w : world) (ns : list (str * bool)) : world :=
  {| nodes := ns; path_query := path_query w; conversion := conversion w;
     fetch := fetch w; archive := archive w; stdin := stdin w |}.

(** [s] without its prefix [pre], when it has that prefix. *)
Fixpoint strip_prefix (pre s : str) : option str :=
  match pre, s with
  | [], _ => Some s
  | _ :: _, [] => None
  | c :: pre', d :: s' => if Ascii.eqb c d then strip_prefix pre' s' else None
  end.

(** [path] relative to the directory [d], when it lies under [d]. *)
Definition under (fl : flavour) (d path : str) : option str :=
  match strip_prefix d path with
  | Some (c :: rest) =>
      if is_sep fl c then Some rest
      else match rev d with
           | l :: _ => if is_sep fl l then Some (c :: rest) else None
           | [] => None
           end
  | _ => None
  end.

Definition is_or_under (fl : flavour) (d path : str) : bool :=
  str_eqb d path || match under fl d path with Some _ => true | None => false end.

Definition exists_ (w : world) (p : str) : bool :=
  existsb (fun n => str_eqb (fst n) p) (nodes w).

Definition isdir (w : world) (p : str) : bool :=
  existsb (fun n => str_eqb (fst n) p && snd n) (nodes w).

Definition listdir (fl : flavour) (w : world) (d : str) : res (list str) :=
  if isdir w d then
    Ret (flat_map
           (fun n =>
              match under fl d (fst n) with
              | Some (c :: name) =>
                  if existsb (is_sep fl) (c :: name) then [] else [c :: name]
              | _ => []
              end)
           (nodes w))
  else Raise (mk_exn FileNotFoundError (lit "No such file or directory")).

Definition spawn (w : world) (argv : list str) : res (Z * str) * world :=
  (if list_eq_dec (list_eq_dec ascii_dec) argv [lit "ffmpeg"; lit "-version"]
   then path_query w else conversion w, w).

Definition urlretrieve (w : world) (url filename : str) : res unit * world :=
  match fetch w with
  | Ret _ => (Ret tt, with_nodes w (nodes w ++ [(filename, false)]))
  | Raise e => (Raise e, w)
  end.

Definition extractall (w : world) (zip dest : str) : res unit * world :=
  match archive w with
  | Ret created => (Ret tt, with_nodes w (nodes w ++ created))
  | Raise e => (Raise e, w)
  end.

Definition rmtree (fl : flavour) (w : world) (p : str) : res unit * world :=
  (Ret tt,
   with_nodes w (filter (fun n => negb (is_or_under fl p (fst n))) (nodes w))).

Definition rename (fl : flavour) (w : world) (src dst : str)
  : res unit * world :=
  if exists_ w src then
    (Ret tt,
     with_nodes w
       (map (fun n =>
               if str_eqb src (fst n) then (dst, snd n)
               else match under fl src (fst n) with
                    | Some rest => (join fl dst [rest], snd n)
                    | None => n
                    end)
            (nodes w)))
  else (Raise (mk_exn FileNotFoundError (lit "No such file or directory")), w).

Definition remove (w : world) (p : str) : res unit * world :=
  if exists_ w p then
    (Ret tt, with_nodes w (filter (fun n => negb (str_eqb p (fst n))) (nodes w)))
  else (Raise (mk_exn FileNotFoundError (lit "No such file or directory")), w).

Definition input (w : world) (prompt : str) : res str * world := (stdin w, w).

Definition os (fl : flavour) : OS world :=
  {| os_exists := exists_;
     os_isdir := isdir;
     os_listdir := listdir fl;
     os_spawn := spawn;
     os_urlretrieve := urlretrieve;
     os_extractall := extractall;
     os_rmtree := rmtree fl;
     os_rename := rename fl;
     os_remove := remove;
     os_input := input |}.

(** [ntpath.basename] for a path with a drive letter or with no drive
    (the simulated machine has no UNC paths): the drive letter and its
    colon are set aside, and what follows the last separator is taken. *)
Definition drive_basename (p : str) : str :=
  let rest := match p with _ :: ":"%char :: rest => rest | _ => p end in
  from (Z.max (rfind "\"%char rest) (rfind "/"%char rest) + 1) rest.

(** The locale of the simulated machines decodes ASCII and nothing else
    (the simulated children write no carriage return, so no line end is
    translated). *)
Definition undecodable : exn :=
  mk_exn (OtherException (lit "UnicodeDecodeError"))
    (lit "'ascii' codec can't decode byte: ordinal not in range(128)").

Definition ascii_decode (raw : str) : res str :=
  if forallb is_ascii raw then Ret raw else Raise undecodable.

(** A Windows machine with the script in [C:\app], and a Linux one with
    the script in [/opt/app]. *)
Definition windows : env :=
  {| platform_system := lit "Windows";
     path_flavour := Nt;
     script_dir := lit "C:\app";
     called_process_error_str := fun _ _ => lit "Command returned non-zero exit status.";
     path_basename := drive_basename;
     locale_decode := ascii_decode |}.

Definition linux : env :=
  {| platform_system := lit "Linux";
     path_flavour := Posix;
     script_dir := lit "/opt/app";
     called_process_error_str := fun _ _ => lit "Command returned non-zero exit status.";
     path_basename := posix_basename;
     locale_decode := ascii_decode |}.

Definition not_found : exn :=
  mk_exn FileNotFoundError (lit "[Errno 2] No such file or directory: 'ffmpeg'").

Definition permission_denied : exn :=
  mk_exn PermissionError (lit "[Errno 13] Permission denied: 'ffmpeg'").

(** Windows, no ffmpeg anywhere, and a server whose archive unpacks to the
    usual versioned directory. *)
Definition fresh_windows : world :=
  {| nodes := [(lit "C:\app", true); (lit "C:\app\4.3.py", false);
               (lit "C:\clips", true); (lit "C:\clips\holiday.mp4", false)];
     path_query := Raise not_found;
     conversion := Ret (0, lit "frame= 100");
     fetch := Ret tt;
     archive := Ret [(lit "C:\app\ffmpeg-7.1-essentials_build", true);
                     (lit "C:\app\ffmpeg-7.1-essentials_build\bin", true);
                     (lit "C:\app\ffmpeg-7.1-essentials_build\bin\ffmpeg.exe", false)];
     stdin := Ret [] |}.

(** The same machine, served an archive without the versioned directory. *)
Definition odd_archive : world :=
  {| nodes := nodes fresh_windows;
     path_query := Raise not_found;
     conversion := Ret (0, lit "frame= 100");
     fetch := Ret tt;
     archive := Ret [(lit "C:\app\README.txt", false)];
     stdin := Ret [] |}.

(** Linux, ffmpeg on the search path. *)
Definition linux_with_ffmpeg (run : res (Z * str)) : world :=
  {| nodes := [(lit "/opt/app", true); (lit "/opt/app/4.3.py", false);
               (lit "/home/u/a.b", true); (lit "/home/u/a.b/clip.mp4", false)];
     path_query := Ret (0, []);
     conversion := run;
     fetch := Raise (mk_exn (OtherException (lit "URLError")) (lit "unreachable"));
     archive := Ret [];
     stdin := Ret [] |}.

(** Linux, no ffmpeg on the search path, a copy beside the script. *)
Definition linux_local_copy : world :=
  {| nodes := [(lit "/opt/app", true); (lit "/opt/app/4.3.py", false);
               (lit "/opt/app/ffmpeg", true); (lit "/opt/app/ffmpeg/ffmpeg", false);
               (lit "/home/u/clip.mp4", false)];
     path_query := Raise not_found;
     conversion := Ret (0, []);
     fetch := Raise (mk_exn (OtherException (lit "URLError")) (lit "unreachable"));
     archive := Ret [];
     stdin := Ret [] |}.

(** Linux, a file named ffmpeg on the search path that may not be
    executed. *)
Definition linux_no_permission : world :=
  {| nodes := [(lit "/opt/app", true); (lit "/opt/app/4.3.py", false);
               (lit "/home/u/clip.mp4", false)];
     path_query := Raise permission_denied;
     conversion := Raise not_found;
     fetch := Ret tt;
     archive := Ret [];
     stdin := Ret [] |}.

End Sim.

(** ** More simulated machines *)

Module Scenes.

Definition url_error : exn :=
  mk_exn (OtherException (lit "URLError"))
    (lit "<urlopen error [Errno 11001] getaddrinfo failed>").

Definition bad_zip : exn :=
  mk_exn (OtherException (lit "BadZipFile")) (lit "File is not a zip file").

Definition access_denied : exn :=
  mk_exn PermissionError (lit "[WinError 5] Access is denied").

Definition unencodable : exn :=
  mk_exn (OtherException (lit "UnicodeEncodeError"))
    (lit "'charmap' codec can't encode character: character maps to <undefined>").

(** A console whose encoding has the ASCII characters only. *)
Definition ascii_console : Console Sim.world :=
  {| console_write := fun _ line =>
       if forallb is_ascii line then Ret tt else Raise unencodable |}.

Definition end_of_file : exn :=
  mk_exn (OtherException (lit "EOFError")) (lit "EOF when reading a line").

(** Linux, no ffmpeg anywhere. *)
Definition linux_bare : Sim.world :=
  {| Sim.nodes := [(lit "/opt/app", true); (lit "/opt/app/4.3.py", false);
                   (lit "/home/u/clip.mp4", false)];
     Sim.path_query := Raise Sim.not_found;
     Sim.conversion := Raise Sim.not_found;
     Sim.fetch := Ret tt;
     Sim.archive := Ret [];
     Sim.stdin := Ret [] |}.

(** Linux with ffmpeg on the search path and the console closed. *)
Definition linux_no_console : Sim.world :=
  {| Sim.nodes := Sim.nodes (Sim.linux_with_ffmpeg (Ret (0, [])));
     Sim.path_query := Ret (0, []);
     Sim.conversion := Ret (0, []);
     Sim.fetch := Ret tt;
     Sim.archive := Ret [];
     Sim.stdin := Raise end_of_file |}.

(** Windows without ffmpeg and without a network. *)
Definition windows_offline : Sim.world :=
  {| Sim.nodes := Sim.nodes Sim.fresh_windows;
     Sim.path_query := Raise Sim.not_found;
     Sim.conversion := Ret (0, []);
     Sim.fetch := Raise url_error;
     Sim.archive := Sim.archive Sim.fresh_windows;
     Sim.stdin := Ret [] |}.

(** Windows without ffmpeg, served a file that is not an archive. *)
Definition windows_bad_archive : Sim.world :=
  {| Sim.nodes := Sim.nodes Sim.fresh_windows;
     Sim.path_query := Raise Sim.not_found;
     Sim.conversion := Ret (0, []);
     Sim.fetch := Ret tt;
     Sim.archive := Raise bad_zip;
     Sim.stdin := Ret [] |}.

(** Windows with the remains of an earlier install: the directory is there,
    the executable is not. *)
Definition windows_stale_install : Sim.world :=
  {| Sim.nodes := Sim.nodes Sim.fresh_windows
                    ++ [(lit "C:\app\ffmpeg", true);
                        (lit "C:\app\ffmpeg\README.txt", false)];
     Sim.path_query := Raise Sim.not_found;
     Sim.conversion := Ret (0, []);
     Sim.fetch := Ret tt;
     Sim.archive := Sim.archive Sim.fresh_windows;
     Sim.stdin := Ret [] |}.

(** The simulated operating system, with every rename refused. *)
Definition os_rename_denied (fl : flavour) : OS Sim.world :=
  {| os_exists := Sim.exists_;
     os_isdir := Sim.isdir;
     os_listdir := Sim.listdir fl;
     os_spawn := Sim.spawn;
     os_urlretrieve := Sim.urlretrieve;
     os_extractall := Sim.extractall;
     os_rmtree := Sim.rmtree fl;
     os_rename := fun w _ _ => (Raise access_denied, w);
     os_remove := Sim.remove;
     os_input := Sim.input |}.

End Scenes.

(** The lines [download_ffmpeg] prints before it does anything, and the
    lines of its handler. *)
Definition download_banner : list event :=
  [EPrint (nl ++ times (lit "=") 60);
   EPrint (lit "FFmpeg not found - downloading...");
   EPrint (times (lit "=") 60)].

Definition download_error_report (e : exn) : list event :=
  [EPrint (nl ++ lit "✗ Error downloading FFmpeg: " ++ exn_str e);
   EPrint (nl ++ lit "Please install ffmpeg manually:");
   EPrint (lit "  Download from: https://ffmpeg.org/download.html")].

(** The lines [main] prints first. *)
Definition main_banner : list event :=
  [EPrint (times (lit "=") 60);
   EPrint (lit "4:3 to 16:9 Video Converter");
   EPrint (times (lit "=") 60);
   EPrint []].

(** * Properties *)

(** ** Strings and paths *)

Lemma str_eqb_eq (a b : str) : str_eqb a b = true <-> a = b.
Proof.
  unfold str_eqb. destruct (list_eq_dec ascii_dec a b); split; congruence.
Qed.

Lemma str_eqb_refl (a : str) : str_eqb a a = true.
Proof. now apply str_eqb_eq. Qed.

Lemma rfind_range (c : ascii) (s : str) :
  -1 <= rfind c s < Z.of_nat (length s).
Proof.
  induction s as [|x s IH]; simpl length; cbn [rfind]; [lia|].
  destruct (0 <=? rfind c s) eqn:Hr.
  - apply Z.leb_le in Hr. lia.
  - destruct (Ascii.eqb x c); lia.
Qed.

Lemma rfind_absent (c : ascii) (s : str) : ~ In c s -> rfind c s = -1.
Proof.
  induction s as [|x s IH]; cbn [rfind]; intros Hin; [reflexivity|].
  rewrite IH by (intros H; apply Hin; now right).
  cbn. destruct (Ascii.eqb x c) eqn:Hx; [|reflexivity].
  apply Ascii.eqb_eq in Hx. exfalso. apply Hin. now left.
Qed.

(** What follows the last occurrence does not matter. *)
Lemma rfind_app_absent (c : ascii) (a b : str) :
  ~ In c b -> rfind c (a ++ b) = rfind c a.
Proof.
  intros Hb. induction a as [|x a IH]; cbn [app rfind].
  - now apply rfind_absent.
  - now rewrite IH.
Qed.

Lemma rfind_last (c : ascii) (a b : str) :
  ~ In c b -> rfind c (a ++ c :: b) = Z.of_nat (length a).
Proof.
  intros Hb. induction a as [|x a IH]; cbn [app rfind length].
  - rewrite (rfind_absent c b Hb). cbn. now rewrite Ascii.eqb_refl.
  - rewrite IH.
    destruct (0 <=? Z.of_nat (length a)) eqn:Hl; [lia|].
    apply Z.leb_gt in Hl. lia.
Qed.

Lemma upto_app (a b : str) : upto (Z.of_nat (length a)) (a ++ b) = a.
Proof.
  unfold upto. rewrite Nat2Z.id, firstn_app, Nat.sub_diag, firstn_all.
  cbn. apply app_nil_r.
Qed.

Lemma from_app (a b : str) : from (Z.of_nat (length a)) (a ++ b) = b.
Proof.
  unfold from. rewrite Nat2Z.id, skipn_app, Nat.sub_diag, skipn_all.
  reflexivity.
Qed.

Lemma slice_one (a : str) (x : ascii) (b : str) :
  slice (Z.of_nat (length a)) (Z.of_nat (length a) + 1) (a ++ x :: b) = [x].
Proof.
  unfold slice. rewrite from_app.
  replace (Z.of_nat (length a) + 1 - Z.of_nat (length a)) with 1 by lia.
  reflexivity.
Qed.

(** The loop over the leading dots leaves at the first character that is
    not a dot, when there is one before the bound. *)
Lemma skip_leading_dots_found (mid : str) :
  forall (n : nat) (pre : str) (x : ascii) (post : str),
    x <> dot -> (length mid < n)%nat ->
    skip_leading_dots n (pre ++ mid ++ x :: post) (Z.of_nat (length pre)) = true.
Proof.
  induction mid as [|m mid IH]; intros n pre x post Hx Hn;
    (destruct n as [|n]; [lia|]); cbn [skip_leading_dots app].
  - rewrite slice_one.
    destruct (str_eqb [x] [dot]) eqn:Heq; [|reflexivity].
    apply str_eqb_eq in Heq. congruence.
  - rewrite slice_one.
    destruct (str_eqb [m] [dot]); [|reflexivity].
    specialize (IH n (pre ++ [m]) x post Hx).
    rewrite <- app_assoc, length_app in IH. cbn [app length] in IH.
    replace (Z.of_nat (length pre) + 1)
      with (Z.of_nat (length pre + 1)) by lia.
    apply IH. cbn [length] in Hn. lia.
Qed.

(** The separators of a flavour, seen through [rfind]: the index
    [_splitext] computes lies in the part of the path where a separator can
    be. *)
Lemma sep_index_bound (fl : flavour) (a b : str) :
  (forall c, In c b -> is_sep fl c = false) ->
  let i := match altsep fl with
           | Some alt => Z.max (rfind (sep fl) (a ++ b)) (rfind alt (a ++ b))
           | None => rfind (sep fl) (a ++ b)
           end in
  -1 <= i < Z.of_nat (length a).
Proof.
  intros Hb.
  assert (Hno : forall c, is_sep fl c = true -> ~ In c b).
  { intros c Hc Hin. apply Hb in Hin. congruence. }
  assert (Hsep : is_sep fl (sep fl) = true).
  { unfold is_sep. now rewrite Ascii.eqb_refl. }
  rewrite (rfind_app_absent _ a b (Hno _ Hsep)).
  pose proof (rfind_range (sep fl) a).
  destruct (altsep fl) as [alt|] eqn:Halt; cbn zeta; [|lia].
  assert (Halt' : is_sep fl alt = true).
  { unfold is_sep. rewrite Halt, Ascii.eqb_refl. apply orb_true_r. }
  rewrite (rfind_app_absent _ a b (Hno _ Halt')).
  pose proof (rfind_range alt a). lia.
Qed.

(** [os.path.splitext] on a path whose last component is a stem with a
    character other than a dot, then a dot, then an extension without dots:
    the split is at that last dot, whatever the directory part is. *)
Lemma splitext_stem_ext (fl : flavour) (dir stem e : str) :
  (forall c, In c stem -> is_sep fl c = false) ->
  (exists c, In c stem /\ c <> dot) ->
  (forall c, In c e -> is_sep fl c = false /\ c <> dot) ->
  splitext fl (dir ++ stem ++ dot :: e) = (dir ++ stem, dot :: e).
Proof.
  intros Hstem [x [Hx Hxdot]] He.
  assert (Hdotsep : is_sep fl dot = false) by (destruct fl; reflexivity).
  assert (Htail : forall c, In c (stem ++ dot :: e) -> is_sep fl c = false).
  { intros c Hc. apply in_app_or in Hc. destruct Hc as [Hc|[Hc|Hc]].
    - now apply Hstem.
    - now subst c.
    - now apply He. }
  assert (Hedot : ~ In dot e).
  { intros Hin. now destruct (He _ Hin). }
  pose proof (sep_index_bound fl dir (stem ++ dot :: e) Htail) as Hi.
  unfold splitext, _splitext.
  set (i := match altsep fl with
            | Some a => Z.max (rfind (sep fl) (dir ++ stem ++ dot :: e))
                              (rfind a (dir ++ stem ++ dot :: e))
            | None => rfind (sep fl) (dir ++ stem ++ dot :: e)
            end) in *.
  cbn zeta in Hi.
  assert (Hdot : rfind dot (dir ++ stem ++ dot :: e)
                 = Z.of_nat (length (dir ++ stem))).
  { rewrite app_assoc. now apply rfind_last. }
  rewrite Hdot.
  assert (Hlt : (i <? Z.of_nat (length (dir ++ stem))) = true).
  { apply Z.ltb_lt. rewrite length_app. lia. }
  rewrite Hlt. cbn [andb].
  apply in_split in Hx. destruct Hx as [s1 [s2 Hsplit]]. subst stem.
  assert (Hskip :
    skip_leading_dots
      (Z.to_nat (Z.of_nat (length (dir ++ s1 ++ x :: s2)) - (i + 1)))
      (dir ++ (s1 ++ x :: s2) ++ dot :: e) (i + 1) = true).
  { set (k := Z.to_nat (i + 1)).
    assert (Hk : (k <= length dir)%nat) by (unfold k; lia).
    replace (dir ++ (s1 ++ x :: s2) ++ dot :: e)
      with (firstn k dir ++ (skipn k dir ++ s1) ++ x :: s2 ++ dot :: e).
    2:{ rewrite <- (firstn_skipn k dir) at 3.
        now rewrite <- !app_assoc. }
    replace (i + 1) with (Z.of_nat (length (firstn k dir))).
    2:{ rewrite length_firstn, Nat.min_l by exact Hk. unfold k. lia. }
    apply skip_leading_dots_found; [exact Hxdot|].
    rewrite !length_app, length_skipn, length_firstn, Nat.min_l by exact Hk.
    cbn [length]. unfold k. lia. }
  rewrite Hskip.
  rewrite (app_assoc dir (s1 ++ x :: s2) (dot :: e)).
  now rewrite upto_app, from_app.
Qed.

Lemma output_path_stem_ext (fl : flavour) (dir stem e : str) :
  (forall c, In c stem -> is_sep fl c = false) ->
  (exists c, In c stem /\ c <> dot) ->
  (forall c, In c e -> is_sep fl c = false /\ c <> dot) ->
  output_path fl (dir ++ stem ++ dot :: e)
  = dir ++ stem ++ lit "_16-9" ++ dot :: e.
Proof.
  intros Hs Hx He. unfold output_path.
  rewrite (splitext_stem_ext fl dir stem e Hs Hx He).
  now rewrite <- app_assoc.
Qed.

(** [strip] with a one-character set. *)
Lemma lstrip_keeps (chars s : str) :
  match s with c :: _ => mem c chars = false | [] => True end ->
  lstrip chars s = s.
Proof.
  destruct s as [|c s]; cbn; [reflexivity|]. now intros ->.
Qed.

Lemma rstrip_keeps (chars s : str) :
  match rev s with c :: _ => mem c chars = false | [] => True end ->
  rstrip chars s = s.
Proof.
  intros H. unfold rstrip. rewrite lstrip_keeps by exact H. apply rev_involutive.
Qed.

Lemma strip_keeps (chars s : str) :
  match s with c :: _ => mem c chars = false | [] => True end ->
  match rev s with c :: _ => mem c chars = false | [] => True end ->
  strip chars s = s.
Proof.
  intros Hl Hr. unfold strip. rewrite lstrip_keeps by exact Hl.
  now apply rstrip_keeps.
Qed.

Lemma strip_wrapped (q : ascii) (s : str) :
  match s with c :: _ => mem c [q] = false | [] => True end ->
  match rev s with c :: _ => mem c [q] = false | [] => True end ->
  strip [q] (q :: s ++ [q]) = s.
Proof.
  intros Hl Hr. unfold strip. cbn [lstrip mem existsb].
  rewrite Ascii.eqb_refl. cbn [orb].
  destruct s as [|c s].
  - cbn. rewrite Ascii.eqb_refl. reflexivity.
  - cbn [app lstrip]. rewrite Hl. unfold rstrip.
    change (c :: s ++ [q]) with ((c :: s) ++ [q]).
    rewrite rev_app_distr.
    change (rev [q] ++ rev (c :: s)) with (q :: rev (c :: s)).
    cbn [lstrip mem existsb]. rewrite Ascii.eqb_refl. cbn [orb].
    rewrite lstrip_keeps by exact Hr. apply rev_involutive.
Qed.

(** ** The monad *)

Section Monad_facts.

Context {W : Type}.

Lemma never_raises_ret {A} (a : A) : never_raises (ret a : M W A).
Proof. intros w. now exists a. Qed.

Lemma never_raises_bind {A B} (m : M W A) (k : A -> M W B) :
  never_raises m -> (forall a, never_raises (k a)) -> never_raises (bind m k).
Proof.
  intros Hm Hk w. unfold bind. destruct (Hm w) as [a Ha].
  destruct (m w) as [[r w1] t1]. cbn in Ha. subst r.
  destruct (Hk a w1) as [b Hb].
  destruct (k a w1) as [[r w2] t2]. cbn in Hb. subst r. now exists b.
Qed.

Lemma never_raises_try_any {A} (body : M W A) (handler : exn -> M W A) :
  (forall e, never_raises (handler e)) ->
  never_raises (try_except body any_exception handler).
Proof.
  intros Hh w. unfold try_except. destruct (body w) as [[[a|e] w1] t1].
  - now exists a.
  - cbn [any_exception]. destruct (Hh e w1) as [b Hb].
    destruct (handler e w1) as [[r w2] t2]. cbn in Hb. subst r. now exists b.
Qed.

Lemma all_events_ret {A} P (a : A) : all_events P (ret a : M W A).
Proof. intros w. reflexivity. Qed.

Lemma all_events_bind {A B} P (m : M W A) (k : A -> M W B) :
  all_events P m -> (forall a, all_events P (k a)) -> all_events P (bind m k).
Proof.
  intros Hm Hk w. unfold bind. specialize (Hm w).
  destruct (m w) as [[[a|e] w1] t1]; cbn in Hm |- *; [|exact Hm].
  specialize (Hk a w1). destruct (k a w1) as [[r w2] t2]. cbn in Hk |- *.
  rewrite forallb_app, Hm, Hk. reflexivity.
Qed.

Lemma all_events_try {A} P (body : M W A) handles (handler : exn -> M W A) :
  all_events P body -> (forall e, all_events P (handler e)) ->
  all_events P (try_except body handles handler).
Proof.
  intros Hb Hh w. unfold try_except. specialize (Hb w).
  destruct (body w) as [[[a|e] w1] t1]; cbn in Hb |- *; [exact Hb|].
  destruct (handles e); [|exact Hb].
  specialize (Hh e w1). destruct (handler e w1) as [[r w2] t2]. cbn in Hh |- *.
  rewrite forallb_app, Hb, Hh. reflexivity.
Qed.

End Monad_facts.

(** ** The installer and the locator *)

Section Script_facts.

Context {W : Type}.
Variable E : env.
Variable O : OS W.

Let fl := path_flavour E.

Lemma never_raises_print line : never_raises (print line : M W unit).
Proof. intros w. now exists tt. Qed.

Lemma not_spawn_print line : all_events not_spawn (print line : M W unit).
Proof. intros w. reflexivity. Qed.

Lemma not_spawn_filterM (keep : str -> M W bool) (l : list str) :
  (forall f, all_events not_spawn (keep f)) ->
  all_events not_spawn (filterM keep l).
Proof.
  intros Hk. induction l as [|f l IH]; cbn [filterM].
  - apply all_events_ret.
  - apply all_events_bind; [apply Hk|]. intros k.
    apply all_events_bind; [apply IH|]. intros rest. apply all_events_ret.
Qed.

Ltac os_call f :=
  let w := fresh "w" in
  intros w; unfold f;
  match goal with
  | |- context [?g O w ?a ?b] => destruct (g O w a b) as [? ?]
  | |- context [?g O w ?a] => destruct (g O w a) as [? ?]
  | _ => idtac
  end; reflexivity.

Lemma not_spawn_path_exists p : all_events not_spawn (path_exists O p).
Proof. os_call @path_exists. Qed.

Lemma not_spawn_path_isdir p : all_events not_spawn (path_isdir O p).
Proof. os_call @path_isdir. Qed.

Lemma not_spawn_listdir p : all_events not_spawn (listdir O p).
Proof. os_call @listdir. Qed.

Lemma not_spawn_urlretrieve u f : all_events not_spawn (urlretrieve O u f).
Proof. os_call @urlretrieve. Qed.

Lemma not_spawn_extractall a d : all_events not_spawn (extractall O a d).
Proof. os_call @extractall. Qed.

Lemma not_spawn_rmtree p : all_events not_spawn (rmtree O p).
Proof. os_call @rmtree. Qed.

Lemma not_spawn_rename a b : all_events not_spawn (rename O a b).
Proof. os_call @rename. Qed.

Lemma not_spawn_remove p : all_events not_spawn (remove O p).
Proof. os_call @remove. Qed.

(** [download_ffmpeg] launches no child process. *)
Lemma download_ffmpeg_not_spawn : all_events not_spawn (download_ffmpeg E O).
Proof.
  unfold download_ffmpeg.
  repeat first
    [ apply not_spawn_print | apply not_spawn_path_exists
    | apply not_spawn_path_isdir | apply not_spawn_listdir
    | apply not_spawn_urlretrieve | apply not_spawn_extractall
    | apply not_spawn_rmtree | apply not_spawn_rename | apply not_spawn_remove
    | apply all_events_ret
    | apply not_spawn_filterM; intros ?
    | apply all_events_try; [|intros ?]
    | apply all_events_bind; [|intros ?]
    | match goal with
      | |- all_events _ (if ?b then _ else _) => destruct b
      | |- all_events _ (match ?l with [] => _ | _ :: _ => _ end) => destruct l
      end ].
Qed.

(** On the console that takes every line, every exception raised inside
    [download_ffmpeg] ends in its handler and the routine returns.  (A
    console whose writes can raise is treated at the end of the file.) *)
Lemma download_ffmpeg_never_raises : never_raises (download_ffmpeg E O).
Proof.
  unfold download_ffmpeg.
  repeat (apply never_raises_bind; [apply never_raises_print|intros _]).
  apply never_raises_try_any. intros e.
  repeat (apply never_raises_bind; [apply never_raises_print|intros _]).
  apply never_raises_ret.
Qed.

(** *** [check_ffmpeg], case by case *)

Lemma check_ffmpeg_on_path (w w1 : W) (err : str) :
  os_spawn O w version_query = (Ret (0, err), w1) ->
  check_ffmpeg E O w
  = (Ret (Some (lit "ffmpeg")), w1, [ESpawn version_query (Ret (0, err))]).
Proof.
  intros H. unfold check_ffmpeg, bind, try_except, subprocess_run, bind, spawn.
  rewrite H. reflexivity.
Qed.

Lemma check_ffmpeg_propagates (w w1 : W) (e : exn) :
  os_spawn O w version_query = (Raise e, w1) ->
  called_process_or_not_found e = false ->
  check_ffmpeg E O w = (Raise e, w1, [ESpawn version_query (Raise e)]).
Proof.
  intros H He.
  unfold check_ffmpeg, bind, try_except, subprocess_run, bind, spawn.
  rewrite H. cbn. rewrite He. reflexivity.
Qed.

(** After a failed query the search path is given up, and the result is
    that of the local lookup and, if it comes to that, of the download. *)
Lemma check_ffmpeg_off_path (w w1 : W) (r : res (Z * str)) :
  os_spawn O w version_query = (r, w1) ->
  query_failed r = true ->
  let local_ffmpeg := get_ffmpeg_path E in
  check_ffmpeg E O w
  = if os_exists O w1 local_ffmpeg
    then (Ret (Some local_ffmpeg), w1,
          [ESpawn version_query r; EExists local_ffmpeg true])
    else
      let '(d, w2, t) := download_ffmpeg E O w1 in
      match d with
      | Ret true =>
          let present := os_exists O w2 local_ffmpeg in
          (Ret (if present then Some local_ffmpeg else None), w2,
           [ESpawn version_query r; EExists local_ffmpeg false]
             ++ t ++ [EExists local_ffmpeg present])
      | Ret false =>
          (Ret None, w2,
           [ESpawn version_query r; EExists local_ffmpeg false] ++ t ++ [])
      | Raise e =>
          (Raise e, w2,
           [ESpawn version_query r; EExists local_ffmpeg false] ++ t)
      end.
Proof.
  intros H Hr local_ffmpeg.
  assert (Hfirst :
    try_except
      (bind (subprocess_run E O version_query true false) (fun _ => ret true))
      called_process_or_not_found (fun _ => ret false) w
    = (Ret false, w1, [ESpawn version_query r])).
  { unfold try_except, bind, subprocess_run, bind, spawn. rewrite H.
    destruct r as [[status err]|e]; cbn in Hr |- *.
    - rewrite Hr. cbn. reflexivity.
    - rewrite Hr. cbn. reflexivity. }
  unfold check_ffmpeg. unfold bind at 1. rewrite Hfirst.
  unfold bind at 1. unfold path_exists at 1. fold local_ffmpeg.
  destruct (os_exists O w1 local_ffmpeg) eqn:Hex; [reflexivity|].
  unfold bind at 1.
  destruct (download_ffmpeg E O w1) as [[[[|]|e] w2] t]; cbn.
  - unfold bind, path_exists. fold local_ffmpeg.
    destruct (os_exists O w2 local_ffmpeg); reflexivity.
  - reflexivity.
  - reflexivity.
Qed.

(** *** [convert_video] once the input exists and ffmpeg was located *)

Lemma convert_video_invokes (p exe : str) (w w1 : W) (t1 : list event) :
  os_exists O w p = true ->
  check_ffmpeg E O w = (Ret (Some exe), w1, t1) ->
  exe <> [] ->
  let out := output_path fl p in
  let cmd := command exe p out in
  convert_video E O p w
  = (Ret (query_succeeded (run_outcome E (fst (os_spawn O w1 cmd)))),
     snd (os_spawn O w1 cmd),
     [EExists p true] ++ t1
       ++ [EPrint (lit "Converting: " ++ path_basename E p);
           EPrint (lit "Output will be: " ++ path_basename E out);
           EPrint (nl ++ lit "Processing... (this may take a while)");
           ESpawn cmd (fst (os_spawn O w1 cmd))]
       ++ conversion_report out (run_outcome E (fst (os_spawn O w1 cmd)))).
Proof.
  intros Hex Hcheck Hexe out cmd.
  destruct exe as [|c exe']; [congruence|].
  unfold convert_video. unfold bind at 1. unfold path_exists at 1.
  rewrite Hex. cbn [negb]. unfold bind at 1. rewrite Hcheck.
  fold fl. fold out. fold cmd.
  unfold bind, print, console_write, console_accepts, try_except,
    subprocess_run, bind, spawn, decode.
  destruct (os_spawn O w1 cmd) as [[[status raw]|e] w2]; cbn.
  - destruct (locale_decode E raw) as [text|e]; cbn.
    + destruct (status =? 0); cbn; rewrite <- ?app_assoc; reflexivity.
    + rewrite <- ?app_assoc. reflexivity.
  - rewrite <- ?app_assoc. reflexivity.
Qed.



End Script_facts.

(** ** The output path (C1) *)

(** C1. For an input path whose base name is a stem followed by an
    extension [.ext], the output path [convert_video] derives is the input
    path with [_16-9] put in just before that extension.  The directory part
    [dir] is arbitrary (any depth, dots allowed), the result depends on the
    path and on the flavour of [os.path] only, and it is the last argument
    of the command that [convert_video] launches. *)
Theorem C1_output_path_inserts_suffix (fl : flavour) (dir stem e : str) :
  (forall c, In c stem -> is_sep fl c = false) ->
  (exists c, In c stem /\ c <> dot) ->
  (forall c, In c e -> is_sep fl c = false /\ c <> dot) ->
  let p := dir ++ stem ++ dot :: e in
  let out := dir ++ stem ++ lit "_16-9" ++ dot :: e in
  output_path fl p = out /\
  forall (W : Type) (E : env) (O : OS W) (w w1 : W) (exe : str) (t1 : list event),
    path_flavour E = fl ->
    os_exists O w p = true ->
    check_ffmpeg E O w = (Ret (Some exe), w1, t1) ->
    exe <> [] ->
    exists r t t',
      trace_of (convert_video E O p w)
      = t ++ ESpawn (command exe p out) r :: t'.
Proof.
  intros Hstem Hx He p out.
  assert (Hout : output_path fl p = out)
    by (apply output_path_stem_ext; assumption).
  split; [exact Hout|].
  intros W E O w w1 exe t1 Hfl Hex Hcheck Hexe.
  rewrite (convert_video_invokes E O p exe w w1 t1 Hex Hcheck Hexe).
  rewrite Hfl, Hout. cbn [trace_of snd].
  eexists _, ([EExists p true] ++ t1 ++ [_; _; _]), _.
  rewrite <- !app_assoc. cbn [app]. reflexivity.
Qed.

Lemma C1_witness :
  output_path Posix (lit "/home/u/a.b/clip.mp4")
  = lit "/home/u/a.b/clip_16-9.mp4".
Proof.
  refine (proj1 (C1_output_path_inserts_suffix Posix
                   (lit "/home/u/a.b/") (lit "clip") (lit "mp4") _ _ _)).
  - intros c Hc. cbn in Hc.
    repeat (destruct Hc as [<- | Hc]; [reflexivity|]). destruct Hc.
  - exists "c"%char. split; [now left | discriminate].
  - intros c Hc. cbn in Hc.
    repeat (destruct Hc as [<- | Hc]; [split; [reflexivity|discriminate]|]).
    destruct Hc.
Defined.

(** ** The conversion routine (C2, C3, C4) *)

(** C2. When the input path does not exist, [convert_video] returns
    [False] at once: the existence test is the only call it makes, followed
    by the error line; no version query, no look at the local install path,
    no download, and the state is untouched. *)
Theorem C2_missing_input_fails_first
    (W : Type) (E : env) (O : OS W) (w : W) (p : str) :
  os_exists O w p = false ->
  convert_video E O p w
  = (Ret false, w,
     [EExists p false; EPrint (lit "Error: File not found: " ++ p)]).
Proof.
  intros Hex.
  unfold convert_video, bind, path_exists, print, console_write,
    console_accepts.
  rewrite Hex. reflexivity.
Qed.

Lemma C2_witness :
  convert_video Sim.linux (Sim.os Posix) (lit "/home/u/gone.mp4")
    (Sim.linux_with_ffmpeg (Ret (0, [])))
  = (Ret false, Sim.linux_with_ffmpeg (Ret (0, [])),
     [EExists (lit "/home/u/gone.mp4") false;
      EPrint (lit "Error: File not found: " ++ lit "/home/u/gone.mp4")]).
Proof.
  apply (C2_missing_input_fails_first _ Sim.linux (Sim.os Posix)).
  reflexivity.
Defined.




(** C4. For an existing input path: when the child process exits with a
    status other than 0 and the captured standard error is the text [X]
    (the captured bytes decode to [X]), [convert_video] returns [False] and
    the last line it prints is [X], unchanged. *)
Theorem C4_failure_relays_stderr
    (W : Type) (E : env) (O : OS W) (w w1 w2 : W) (p exe raw X : str)
    (t1 : list event) (status : Z) :
  os_exists O w p = true ->
  check_ffmpeg E O w = (Ret (Some exe), w1, t1) ->
  exe <> [] ->
  os_spawn O w1 (command exe p (output_path (path_flavour E) p))
  = (Ret (status, raw), w2) ->
  locale_decode E raw = Ret X ->
  status <> 0 ->
  outcome_of (convert_video E O p w) = Ret false /\
  exists t,
    trace_of (convert_video E O p w)
    = t ++ [EPrint (nl ++ lit "✗ Conversion failed!");
            EPrint (lit "Error details:");
            EPrint X].
Proof.
  intros Hex Hcheck Hexe Hspawn Hdecode Hstatus.
  rewrite (convert_video_invokes E O p exe w w1 t1 Hex Hcheck Hexe).
  rewrite Hspawn. cbn [outcome_of trace_of fst snd run_outcome].
  rewrite Hdecode.
  apply Z.eqb_neq in Hstatus.
  cbn [query_succeeded conversion_report]. rewrite Hstatus.
  split; [reflexivity|].
  eexists. rewrite !app_assoc. reflexivity.
Qed.

Lemma C4_witness :
  outcome_of
    (convert_video Sim.linux (Sim.os Posix) (lit "/home/u/a.b/clip.mp4")
       (Sim.linux_with_ffmpeg (Ret (1, lit "X"))))
  = Ret false /\
  exists t,
    trace_of
      (convert_video Sim.linux (Sim.os Posix) (lit "/home/u/a.b/clip.mp4")
         (Sim.linux_with_ffmpeg (Ret (1, lit "X"))))
    = t ++ [EPrint (nl ++ lit "✗ Conversion failed!");
            EPrint (lit "Error details:");
            EPrint (lit "X")].
Proof.
  refine (C4_failure_relays_stderr _ Sim.linux (Sim.os Posix)
            (Sim.linux_with_ffmpeg (Ret (1, lit "X"))) _ _
            (lit "/home/u/a.b/clip.mp4") (lit "ffmpeg") (lit "X") (lit "X")
            [_] 1 _ _ _ _ _ _).
  - reflexivity.
  - reflexivity.
  - discriminate.
  - reflexivity.
  - reflexivity.
  - discriminate.
Defined.

(** ** The locator (C5, C6, C10) *)

(** A relative component joined onto a path makes it longer. *)
Lemma join2_length (fl : flavour) (a b : str) :
  match b with c :: _ => is_sep fl c = false | [] => False end ->
  (length a + length b <= length (join2 fl a b))%nat.
Proof.
  destruct b as [|c b]; [intros []|]. intros Hc. unfold join2. rewrite Hc.
  destruct (rev a) as [|l ra] eqn:Hrev.
  - apply (f_equal (@rev ascii)) in Hrev. rewrite rev_involutive in Hrev.
    subst a. cbn. lia.
  - destruct (is_sep fl l); rewrite length_app; cbn [length]; lia.
Qed.

(** The local install path is never the bare name. *)
Lemma get_ffmpeg_path_not_bare (E : env) : get_ffmpeg_path E <> lit "ffmpeg".
Proof.
  intros Heq. apply (f_equal (@length ascii)) in Heq.
  unfold get_ffmpeg_path, join in Heq. cbn [fold_left] in Heq.
  set (fl := path_flavour E) in *.
  assert (Hf : forall s, is_sep fl (List.hd "f"%char (lit "f" ++ s)) = false)
    by (intros s; destruct fl; reflexivity).
  pose proof (join2_length fl (script_dir E) (lit "ffmpeg")) as H1.
  specialize (H1 (Hf (lit "fmpeg"))).
  set (ffmpeg_dir := join2 fl (script_dir E) (lit "ffmpeg")) in *.
  destruct (str_eqb (platform_system E) (lit "Windows")).
  - pose proof (join2_length fl ffmpeg_dir (lit "bin")) as H2.
    assert (Hb : is_sep fl "b"%char = false) by (destruct fl; reflexivity).
    specialize (H2 Hb).
    pose proof (join2_length fl (join2 fl ffmpeg_dir (lit "bin"))
                  (lit "ffmpeg.exe") (Hf (lit "fmpeg.exe"))) as H3.
    cbn [lit list_ascii_of_string length] in *. lia.
  - pose proof (join2_length fl ffmpeg_dir (lit "ffmpeg")
                  (Hf (lit "fmpeg"))) as H2.
    cbn [lit list_ascii_of_string length] in *. lia.
Qed.

(** The version query ends in one of three ways. *)
Lemma version_query_cases (r : res (Z * str)) :
  query_succeeded r = true \/ query_failed r = true \/
  exists e, r = Raise e /\ called_process_or_not_found e = false.
Proof.
  destruct r as [[status err]|e]; cbn.
  - destruct (status =? 0); auto.
  - destruct (called_process_or_not_found e) eqn:He; eauto.
Qed.

Lemma query_succeeded_ret (r : res (Z * str)) :
  query_succeeded r = true -> exists err, r = Ret (0, err).
Proof.
  destruct r as [[status err]|e]; cbn; [|discriminate].
  intros H. apply Z.eqb_eq in H. subst. now exists err.
Qed.

Lemma query_failed_not_succeeded (r : res (Z * str)) :
  query_failed r = true -> query_succeeded r = false.
Proof.
  destruct r as [[status err]|e]; cbn; [|reflexivity].
  now destruct (status =? 0).
Qed.

(** An exception that leaves [check_ffmpeg] was raised by the launch of the
    version query and is of a class the first [try] does not name. *)
Lemma check_ffmpeg_raise_origin
    (W : Type) (E : env) (O : OS W) (w : W) (e : exn) (w' : W) (t : list event) :
  check_ffmpeg E O w = (Raise e, w', t) ->
  fst (os_spawn O w version_query) = Raise e /\
  called_process_or_not_found e = false.
Proof.
  destruct (os_spawn O w version_query) as [r w1] eqn:Hspawn. cbn [fst].
  destruct (version_query_cases r) as [Hr|[Hr|[e' [-> He]]]].
  - apply query_succeeded_ret in Hr. destruct Hr as [err ->].
    rewrite (check_ffmpeg_on_path E O w w1 err Hspawn). discriminate.
  - rewrite (check_ffmpeg_off_path E O w w1 r Hspawn Hr). cbn zeta.
    destruct (os_exists O w1 (get_ffmpeg_path E)); [discriminate|].
    destruct (download_ffmpeg_never_raises E O w1) as [d Hd].
    destruct (download_ffmpeg E O w1) as [[rd w2] t2].
    cbn in Hd. subst rd. destruct d; discriminate.
  - rewrite (check_ffmpeg_propagates E O w w1 e' Hspawn He).
    intros [= <- _ _]. now split.
Qed.

(** C5. When the version query of the bare name, launched through the
    search path, exits with status 0, [check_ffmpeg] returns the bare name
    ['ffmpeg'] and that launch is the only thing it did: no test of the
    local install path, no download, no other call. *)
Theorem C5_found_on_path_stops_there
    (W : Type) (E : env) (O : OS W) (w w1 : W) (err : str) :
  os_spawn O w version_query = (Ret (0, err), w1) ->
  check_ffmpeg E O w
  = (Ret (Some (lit "ffmpeg")), w1, [ESpawn version_query (Ret (0, err))]).
Proof.
  intros H. unfold check_ffmpeg, bind, try_except, subprocess_run, bind, spawn.
  rewrite H. reflexivity.
Qed.

Lemma C5_witness :
  check_ffmpeg Sim.linux (Sim.os Posix) (Sim.linux_with_ffmpeg (Ret (0, [])))
  = (Ret (Some (lit "ffmpeg")), Sim.linux_with_ffmpeg (Ret (0, [])),
     [ESpawn version_query (Ret (0, []))]).
Proof.
  apply (C5_found_on_path_stops_there _ Sim.linux (Sim.os Posix)).
  reflexivity.
Defined.

(** C6, as stated, fails: with no ffmpeg on the search path and a file at
    the local install path, [check_ffmpeg] returns that path although no
    version query of it was ever launched. *)
Lemma C6_local_copy_is_not_queried :
  ~ (forall exe,
        outcome_of (check_ffmpeg Sim.linux (Sim.os Posix) Sim.linux_local_copy)
        = Ret (Some exe) ->
        exists err,
          In (ESpawn [exe; lit "-version"] (Ret (0, err)))
             (trace_of
                (check_ffmpeg Sim.linux (Sim.os Posix) Sim.linux_local_copy))).
Proof.
  intros H. destruct (H (lit "/opt/app/ffmpeg/ffmpeg") eq_refl) as [err Hin].
  cbn in Hin. destruct Hin as [Hin|[Hin|[]]]; discriminate.
Qed.

(** C6, amended. A reference that [check_ffmpeg] produces is either the
    bare name, produced after the version query of the bare name exited
    with status 0, or the local install path, produced after an existence
    test of that path succeeded; in the second case the only child process
    launched was the version query of the bare name, which failed, so the
    local executable itself was not queried. *)
Theorem C6_reference_is_queried_name_or_existing_path
    (W : Type) (E : env) (O : OS W) (w : W) (exe : str) :
  outcome_of (check_ffmpeg E O w) = Ret (Some exe) ->
  let t := trace_of (check_ffmpeg E O w) in
  (exe = lit "ffmpeg" /\
   exists err, In (ESpawn version_query (Ret (0, err))) t) \/
  (exe = get_ffmpeg_path E /\
   In (EExists exe true) t /\
   forall argv r,
     In (ESpawn argv r) t -> argv = version_query /\ query_failed r = true).
Proof.
  intros Hout t. subst t.
  destruct (os_spawn O w version_query) as [r w1] eqn:Hspawn.
  destruct (version_query_cases r) as [Hr|[Hr|[e [-> He]]]].
  - apply query_succeeded_ret in Hr. destruct Hr as [err ->].
    rewrite (check_ffmpeg_on_path E O w w1 err Hspawn) in *.
    left. cbn in Hout |- *. split; [congruence|]. exists err. now left.
  - right. revert Hout.
    rewrite (check_ffmpeg_off_path E O w w1 r Hspawn Hr). cbn zeta.
    destruct (os_exists O w1 (get_ffmpeg_path E)) eqn:Hex1.
    + cbn. intros [= <-]. split; [reflexivity|]. split; [auto|].
      intros argv r' [Hin|[Hin|[]]]; [|discriminate].
      injection Hin as <- <-. now split.
    + pose proof (download_ffmpeg_not_spawn E O w1) as Hns.
      destruct (download_ffmpeg E O w1) as [[[[|]|e] w2] t2];
        cbn in Hns |- *; try discriminate.
      destruct (os_exists O w2 (get_ffmpeg_path E)) eqn:Hex2;
        [|discriminate].
      intros [= <-]. split; [reflexivity|]. split.
      * right. right. apply in_or_app. right. now left.
      * intros argv r' [Hin|[Hin|Hin]]; [|discriminate|].
        -- injection Hin as <- <-. now split.
        -- apply in_app_or in Hin. destruct Hin as [Hin|[Hin|[]]];
             [|discriminate].
           rewrite forallb_forall in Hns. apply Hns in Hin. discriminate.
  - rewrite (check_ffmpeg_propagates E O w w1 e Hspawn He) in Hout.
    discriminate.
Qed.

Lemma C6_witness :
  let t := trace_of (check_ffmpeg Sim.linux (Sim.os Posix) Sim.linux_local_copy) in
  (lit "/opt/app/ffmpeg/ffmpeg" = lit "ffmpeg" /\
   exists err, In (ESpawn version_query (Ret (0, err))) t) \/
  (lit "/opt/app/ffmpeg/ffmpeg" = get_ffmpeg_path Sim.linux /\
   In (EExists (lit "/opt/app/ffmpeg/ffmpeg") true) t /\
   forall argv r,
     In (ESpawn argv r) t -> argv = version_query /\ query_failed r = true).
Proof.
  apply (C6_reference_is_queried_name_or_existing_path _ Sim.linux
           (Sim.os Posix) Sim.linux_local_copy (lit "/opt/app/ffmpeg/ffmpeg")).
  reflexivity.
Defined.

(** C10. What [check_ffmpeg] returns is the bare name ['ffmpeg'], and then
    the version query exited with status 0; or the local install path, which
    is not the bare name and exists in the state at the moment of return; or
    [None].  (Nothing is returned only when the launch of the version query
    raised an exception other than the two the first [try] takes, which then
    leaves [check_ffmpeg].)  In particular, when the download reports success
    and the local install path still does not exist, the result is [None],
    not that path. *)
Theorem C10_result_is_name_existing_path_or_none
    (W : Type) (E : env) (O : OS W) (w : W) :
  let local_ffmpeg := get_ffmpeg_path E in
  let query := fst (os_spawn O w version_query) in
  match check_ffmpeg E O w with
  | (Ret (Some exe), w', _) =>
      (exe = lit "ffmpeg" /\ query_succeeded query = true) \/
      (exe = local_ffmpeg /\ exe <> lit "ffmpeg" /\
       query_failed query = true /\ os_exists O w' exe = true)
  | (Ret None, _, _) => query_failed query = true
  | (Raise e, _, _) =>
      query = Raise e /\ called_process_or_not_found e = false
  end /\
  (forall w2 t,
      query_failed query = true ->
      os_exists O (snd (os_spawn O w version_query)) local_ffmpeg = false ->
      download_ffmpeg E O (snd (os_spawn O w version_query))
      = (Ret true, w2, t) ->
      os_exists O w2 local_ffmpeg = false ->
      outcome_of (check_ffmpeg E O w) = Ret None).
Proof.
  intros local_ffmpeg query. subst query.
  destruct (os_spawn O w version_query) as [r w1] eqn:Hspawn. cbn [fst snd].
  split.
  - destruct (version_query_cases r) as [Hr|[Hr|[e [-> He]]]].
    + pose proof Hr as Hr'. apply query_succeeded_ret in Hr'.
      destruct Hr' as [err ->].
      rewrite (check_ffmpeg_on_path E O w w1 err Hspawn). now left.
    + rewrite (check_ffmpeg_off_path E O w w1 r Hspawn Hr). cbn zeta.
      fold local_ffmpeg.
      destruct (os_exists O w1 local_ffmpeg) eqn:Hex1.
      * right. repeat split; try assumption.
        apply get_ffmpeg_path_not_bare.
      * destruct (download_ffmpeg_never_raises E O w1) as [d Hd].
        destruct (download_ffmpeg E O w1) as [[rd w2] t2].
        cbn in Hd. subst rd. destruct d; [|exact Hr].
        destruct (os_exists O w2 local_ffmpeg) eqn:Hex2; [|exact Hr].
        right. repeat split; try assumption.
        apply get_ffmpeg_path_not_bare.
    + rewrite (check_ffmpeg_propagates E O w w1 e Hspawn He). now split.
  - intros w2 t Hr Hex1 Hd Hex2.
    rewrite (check_ffmpeg_off_path E O w w1 r Hspawn Hr). cbn zeta.
    fold local_ffmpeg. rewrite Hex1, Hd, Hex2. reflexivity.
Qed.

Lemma C10_witness :
  outcome_of (check_ffmpeg Sim.windows (Sim.os Nt) Sim.odd_archive) = Ret None.
Proof.
  refine (proj2 (C10_result_is_name_existing_path_or_none _ Sim.windows
                   (Sim.os Nt) Sim.odd_archive) _ _ _ _ _ _).
  - reflexivity.
  - reflexivity.
  - vm_compute. reflexivity.
  - reflexivity.
Defined.

(** ** Exceptions (C7) *)

(** Whatever the conversion run does, once ffmpeg is located
    [convert_video] returns: an exception of the launch ends in [False]. *)
Lemma convert_video_guards_the_run
    (W : Type) (E : env) (O : OS W) (w w1 : W) (p exe : str)
    (t1 : list event) (e : exn) :
  os_exists O w p = true ->
  check_ffmpeg E O w = (Ret (Some exe), w1, t1) ->
  exe <> [] ->
  fst (os_spawn O w1 (command exe p (output_path (path_flavour E) p)))
  = Raise e ->
  outcome_of (convert_video E O p w) = Ret false.
Proof.
  intros Hex Hcheck Hexe Hspawn.
  rewrite (convert_video_invokes E O p exe w w1 t1 Hex Hcheck Hexe).
  cbn [outcome_of fst]. rewrite Hspawn. reflexivity.
Qed.

(** A run whose conversion failed without an exception leaving it ends with
    status 1, provided the closing prompt is answered. *)
Lemma failed_conversion_exits_1
    (W : Type) (E : env) (O : OS W) (w w1 : W) (prog arg : str)
    (rest : list str) (t1 : list event) (line : str) (w2 : W) :
  convert_video E O (clean_path arg) w = (Ret false, w1, t1) ->
  os_input O w1 (lit "Press Enter to exit...") = (Ret line, w2) ->
  run_script E O (prog :: arg :: rest) w = Exits 1.
Proof.
  intros Hconv Hin. unfold run_script, main.
  unfold bind, print, input. cbn [console_write console_accepts].
  rewrite Hconv, Hin. reflexivity.
Qed.

(** C7 fails at the version query: on a machine where a file named ffmpeg
    on the search path may not be executed, the launch raises
    [PermissionError], which the first [try] of [check_ffmpeg] does not
    take; it leaves [check_ffmpeg], [convert_video] and [main], and the run
    ends in a traceback instead of a reported failure. *)
Theorem C7_permission_error_escapes :
  run_script Sim.linux (Sim.os Posix)
    [lit "4.3.py"; lit "/home/u/clip.mp4"] Sim.linux_no_permission
  = Traceback Sim.permission_denied /\
  trace_of
    (main Sim.linux (Sim.os Posix)
       [lit "4.3.py"; lit "/home/u/clip.mp4"] Sim.linux_no_permission)
  = [EPrint (times (lit "=") 60);
     EPrint (lit "4:3 to 16:9 Video Converter");
     EPrint (times (lit "=") 60);
     EPrint [];
     EPrint (lit "Received file: /home/u/clip.mp4");
     EPrint [];
     EExists (lit "/home/u/clip.mp4") true;
     ESpawn version_query (Raise Sim.permission_denied)].
Proof. split; reflexivity. Qed.

(** ** The installer (C8) *)

(** The list comprehension keeps nothing when the test fails on every
    name. *)
Lemma filterM_keeps_none
    (W : Type) (keep : str -> M W bool) (names : list str) (w : W) :
  (forall f, In f names -> exists t, keep f w = (Ret false, w, t)) ->
  exists t, filterM keep names w = (Ret [], w, t).
Proof.
  induction names as [|f names IH]; intros Hk; cbn [filterM].
  - now exists [].
  - destruct (Hk f (or_introl eq_refl)) as [t Hf].
    destruct IH as [t' Hrest]; [intros g Hg; apply Hk; now right|].
    unfold bind. rewrite Hf, Hrest. cbn. eauto.
Qed.

(** On Windows, a download and an extraction that succeed, followed by a
    listing in which no directory has the expected prefix, end in the
    success message and [True]: the missing directory is not noticed. *)
Lemma download_ffmpeg_without_directory
    (W : Type) (E : env) (O : OS W) (w wa wb wc : W) (names : list str) :
  let fl := path_flavour E in
  let zip_path := join fl (script_dir E) [lit "ffmpeg.zip"] in
  platform_system E = lit "Windows" ->
  os_urlretrieve O w ffmpeg_url zip_path = (Ret tt, wa) ->
  os_extractall O wa zip_path (script_dir E) = (Ret tt, wb) ->
  os_listdir O wb (script_dir E) = Ret names ->
  (forall f, In f names ->
     startswith f (lit "ffmpeg-")
     && os_isdir O wb (join fl (script_dir E) [f]) = false) ->
  os_remove O wb zip_path = (Ret tt, wc) ->
  outcome_of (download_ffmpeg E O w) = Ret true /\
  state_of (download_ffmpeg E O w) = wc /\
  exists t,
    trace_of (download_ffmpeg E O w)
    = t ++ [EPrint (lit "✓ FFmpeg downloaded and installed successfully!" ++ nl)].
Proof.
  intros fl zip_path Hsys Hfetch Hextract Hlist Hnone Hremove.
  destruct (filterM_keeps_none W
              (fun f =>
                 if startswith f (lit "ffmpeg-")
                 then path_isdir O (join fl (script_dir E) [f])
                 else ret false)
              names wb) as [tf Hfilter].
  { intros f Hf. specialize (Hnone f Hf).
    destruct (startswith f (lit "ffmpeg-")); cbn [andb] in Hnone.
    - unfold path_isdir. rewrite Hnone. eauto.
    - unfold ret. eauto. }
  unfold download_ffmpeg. rewrite Hsys, str_eqb_refl.
  fold fl. fold zip_path.
  unfold bind at 1 2 3. cbn [print console_write console_accepts].
  unfold try_except, bind, print, console_write, console_accepts,
    urlretrieve, extractall, listdir, remove.
  rewrite Hfetch, Hextract, Hlist.
  unfold bind in Hfilter. rewrite Hfilter.
  clearbody zip_path fl. cbn. rewrite Hremove. cbn.
  repeat split.
  eexists (_ :: _ :: _ :: _ :: _ :: _ :: _ :: _ :: tf ++ [_]).
  cbn. rewrite <- !app_assoc. reflexivity.
Qed.

(** C8 fails on the code: on a Windows machine without ffmpeg, served an
    archive that unpacks without the versioned directory, the download and
    the extraction succeed, the listing of the script's directory has no
    directory named [ffmpeg-...], and [download_ffmpeg] still prints the
    success message and returns [True], with nothing at the local install
    path. *)
Theorem C8_success_reported_without_install :
  let run := download_ffmpeg Sim.windows (Sim.os Nt) Sim.odd_archive in
  outcome_of run = Ret true /\
  trace_of run
  = [EPrint (nl ++ times (lit "=") 60);
     EPrint (lit "FFmpeg not found - downloading...");
     EPrint (times (lit "=") 60);
     EPrint (lit "Downloading FFmpeg (this may take a few minutes)...");
     EUrlretrieve ffmpeg_url (lit "C:\app\ffmpeg.zip") (Ret tt);
     EPrint (nl ++ lit "Extracting FFmpeg...");
     EExtractall (lit "C:\app\ffmpeg.zip") (lit "C:\app") (Ret tt);
     EListdir (lit "C:\app")
       (Ret [lit "4.3.py"; lit "ffmpeg.zip"; lit "README.txt"]);
     ERemove (lit "C:\app\ffmpeg.zip") (Ret tt);
     EPrint (lit "✓ FFmpeg downloaded and installed successfully!" ++ nl)] /\
  os_exists (Sim.os Nt) (state_of run) (get_ffmpeg_path Sim.windows) = false.
Proof. repeat split. Qed.

(** ** The command line (C9) *)

(** C9. For a path that neither begins nor ends with a quote character,
    the argument wrapped in a pair of double quotes, or in a pair of single
    quotes, is stripped to the path itself, as is the bare argument; so
    [main] passes the same path to [convert_video] and the whole run (the
    result, the final state, everything printed and called) is the same. *)
Theorem C9_quoted_argument_same_run
    (W : Type) (E : env) (O : OS W) (w : W)
    (prog p : str) (rest : list str) (q : ascii) :
  q = dquote \/ q = squote ->
  (forall c t, p = c :: t -> c <> dquote /\ c <> squote) ->
  (forall c t, p = t ++ [c] -> c <> dquote /\ c <> squote) ->
  clean_path (q :: p ++ [q]) = p /\
  clean_path p = p /\
  main E O (prog :: (q :: p ++ [q]) :: rest) w
  = main E O (prog :: p :: rest) w.
Proof.
  intros Hq Hhead Hlast.
  assert (Hl : forall x, x = dquote \/ x = squote ->
               match p with c :: _ => mem c [x] = false | [] => True end).
  { intros x Hx. destruct p as [|c t]; [exact I|].
    destruct (Hhead c t eq_refl) as [Hd Hs]. cbn.
    destruct (Ascii.eqb c x) eqn:Hc; [|reflexivity].
    apply Ascii.eqb_eq in Hc. destruct Hx; congruence. }
  assert (Hr : forall x, x = dquote \/ x = squote ->
               match rev p with c :: _ => mem c [x] = false | [] => True end).
  { intros x Hx. destruct (rev p) as [|c t] eqn:Hrev; [exact I|].
    apply (f_equal (@rev ascii)) in Hrev. rewrite rev_involutive in Hrev.
    cbn [rev] in Hrev.
    destruct (Hlast c (rev t) Hrev) as [Hd Hs]. cbn.
    destruct (Ascii.eqb c x) eqn:Hc; [|reflexivity].
    apply Ascii.eqb_eq in Hc. destruct Hx; congruence. }
  assert (Hbare : clean_path p = p).
  { unfold clean_path.
    rewrite (strip_keeps [dquote] p) by (apply Hl || apply Hr; now left).
    apply strip_keeps; [apply Hl|apply Hr]; now right. }
  assert (Hwrapped : clean_path (q :: p ++ [q]) = p).
  { unfold clean_path. destruct Hq as [-> | ->].
    - rewrite strip_wrapped by (apply Hl || apply Hr; now left).
      apply strip_keeps; [apply Hl|apply Hr]; now right.
    - rewrite (strip_keeps [dquote] (squote :: p ++ [squote])).
      + apply strip_wrapped; [apply Hl|apply Hr]; now right.
      + reflexivity.
      + change (squote :: p ++ [squote]) with ((squote :: p) ++ [squote]).
        rewrite rev_app_distr. reflexivity. }
  split; [exact Hwrapped|]. split; [exact Hbare|].
  unfold main. now rewrite Hwrapped, Hbare.
Qed.

Lemma C9_witness :
  clean_path (dquote :: lit "C:\clips\holiday.mp4" ++ [dquote])
  = lit "C:\clips\holiday.mp4" /\
  clean_path (lit "C:\clips\holiday.mp4") = lit "C:\clips\holiday.mp4" /\
  main Sim.windows (Sim.os Nt)
    [lit "4.3.py"; dquote :: lit "C:\clips\holiday.mp4" ++ [dquote]]
    Sim.fresh_windows
  = main Sim.windows (Sim.os Nt)
      [lit "4.3.py"; lit "C:\clips\holiday.mp4"] Sim.fresh_windows.
Proof.
  apply (C9_quoted_argument_same_run _ Sim.windows (Sim.os Nt)
           Sim.fresh_windows (lit "4.3.py") (lit "C:\clips\holiday.mp4")
           [] dquote).
  - now left.
  - intros c t H. injection H as <- _. split; discriminate.
  - intros c t H.
    apply (f_equal (@rev ascii)) in H. rewrite rev_app_distr in H.
    injection H as <- _. split; discriminate.
Defined.

(** A base name that is only leading dots and a name has no extension for
    [os.path.splitext]; the suffix then goes at the end. *)
Example output_path_of_hidden_file :
  output_path Posix (lit "/home/u/.bashrc") = lit "/home/u/.bashrc_16-9".
Proof. reflexivity. Qed.

(** * Further properties of the script *)

(** ** [download_ffmpeg] *)

(** Off Windows [download_ffmpeg] only prints: it returns [False] after the
    banner and the advice to install by hand, calls nothing in the
    operating system (no network, no file touched) and leaves the state as
    it was. *)
Theorem download_ffmpeg_off_windows
    (W : Type) (E : env) (O : OS W) (w : W) :
  platform_system E <> lit "Windows" ->
  download_ffmpeg E O w
  = (Ret false, w,
     download_banner
       ++ [EPrint (lit "Auto-download only works on Windows.");
           EPrint (lit "Please install ffmpeg manually:");
           EPrint (lit "  Mac: brew install ffmpeg");
           EPrint (lit "  Linux: sudo apt install ffmpeg")]).
Proof.
  intros Hsys. unfold download_ffmpeg.
  destruct (str_eqb (platform_system E) (lit "Windows")) eqn:Heq.
  - apply str_eqb_eq in Heq. contradiction.
  - reflexivity.
Qed.

Lemma download_ffmpeg_off_windows_witness :
  outcome_of (download_ffmpeg Sim.linux (Sim.os Posix) Scenes.linux_bare)
  = Ret false.
Proof.
  rewrite (download_ffmpeg_off_windows _ Sim.linux (Sim.os Posix)
             Scenes.linux_bare).
  - reflexivity.
  - discriminate.
Defined.

(** [download_ffmpeg] never launches a child process. *)
Theorem download_ffmpeg_launches_nothing
    (W : Type) (E : env) (O : OS W) (w : W) (argv : list str)
    (r : res (Z * str)) :
  ~ In (ESpawn argv r) (trace_of (download_ffmpeg E O w)).
Proof.
  intros Hin. pose proof (download_ffmpeg_not_spawn E O w) as H.
  rewrite forallb_forall in H. apply H in Hin. discriminate.
Qed.

(** On Windows, when the fetch raises, [download_ffmpeg] stops there: it
    prints the error with the text of the exception and the advice, returns
    [False], and has attempted no extraction, listing, rename or
    deletion. *)
Theorem download_ffmpeg_fetch_fails
    (W : Type) (E : env) (O : OS W) (w wa : W) (e : exn) :
  let zip_path := join (path_flavour E) (script_dir E) [lit "ffmpeg.zip"] in
  platform_system E = lit "Windows" ->
  os_urlretrieve O w ffmpeg_url zip_path = (Raise e, wa) ->
  download_ffmpeg E O w
  = (Ret false, wa,
     download_banner
       ++ [EPrint (lit "Downloading FFmpeg (this may take a few minutes)...");
           EUrlretrieve ffmpeg_url zip_path (Raise e)]
       ++ download_error_report e).
Proof.
  intros zip_path Hsys Hfetch.
  unfold download_ffmpeg. rewrite Hsys, str_eqb_refl. fold zip_path.
  unfold try_except, bind, print, console_write, console_accepts,
    urlretrieve. rewrite Hfetch.
  reflexivity.
Qed.

Lemma download_ffmpeg_fetch_fails_witness :
  outcome_of (download_ffmpeg Sim.windows (Sim.os Nt) Scenes.windows_offline)
  = Ret false.
Proof.
  rewrite (download_ffmpeg_fetch_fails _ Sim.windows (Sim.os Nt)
             Scenes.windows_offline Scenes.windows_offline Scenes.url_error).
  - reflexivity.
  - reflexivity.
  - reflexivity.
Defined.

(** On Windows, when the extraction raises after a fetch that succeeded,
    [download_ffmpeg] reports the error and returns [False]; the archive it
    downloaded is not deleted (no [os.remove] is attempted). *)
Theorem download_ffmpeg_extraction_fails
    (W : Type) (E : env) (O : OS W) (w wa wb : W) (e : exn) :
  let zip_path := join (path_flavour E) (script_dir E) [lit "ffmpeg.zip"] in
  platform_system E = lit "Windows" ->
  os_urlretrieve O w ffmpeg_url zip_path = (Ret tt, wa) ->
  os_extractall O wa zip_path (script_dir E) = (Raise e, wb) ->
  download_ffmpeg E O w
  = (Ret false, wb,
     download_banner
       ++ [EPrint (lit "Downloading FFmpeg (this may take a few minutes)...");
           EUrlretrieve ffmpeg_url zip_path (Ret tt);
           EPrint (nl ++ lit "Extracting FFmpeg...");
           EExtractall zip_path (script_dir E) (Raise e)]
       ++ download_error_report e).
Proof.
  intros zip_path Hsys Hfetch Hextract.
  unfold download_ffmpeg. rewrite Hsys, str_eqb_refl. fold zip_path.
  unfold try_except, bind, print, console_write, console_accepts,
    urlretrieve, extractall.
  rewrite Hfetch, Hextract. reflexivity.
Qed.

Lemma download_ffmpeg_extraction_fails_witness :
  outcome_of
    (download_ffmpeg Sim.windows (Sim.os Nt) Scenes.windows_bad_archive)
  = Ret false /\
  os_exists (Sim.os Nt)
    (state_of
       (download_ffmpeg Sim.windows (Sim.os Nt) Scenes.windows_bad_archive))
    (lit "C:\app\ffmpeg.zip")
  = true.
Proof.
  rewrite (download_ffmpeg_extraction_fails _ Sim.windows (Sim.os Nt)
             Scenes.windows_bad_archive
             (Sim.with_nodes Scenes.windows_bad_archive
                (Sim.nodes Scenes.windows_bad_archive
                   ++ [(lit "C:\app\ffmpeg.zip", false)]))
             (Sim.with_nodes Scenes.windows_bad_archive
                (Sim.nodes Scenes.windows_bad_archive
                   ++ [(lit "C:\app\ffmpeg.zip", false)]))
             Scenes.bad_zip).
  - split; reflexivity.
  - reflexivity.
  - reflexivity.
  - reflexivity.
Defined.

(** The list comprehension of line 49 reads the state and leaves it alone:
    it keeps, in listing order, the names with the prefix that are
    directories. *)
Lemma filterM_reads
    (W : Type) (O : OS W) (prefix : str) (path_of : str -> str)
    (names : list str) (w : W) :
  exists t,
    filterM
      (fun f =>
         if startswith f prefix then path_isdir O (path_of f) else ret false)
      names w
    = (Ret (filter (fun f => startswith f prefix && os_isdir O w (path_of f))
              names),
       w, t).
Proof.
  set (keep := fun f =>
         if startswith f prefix then path_isdir O (path_of f) else ret false).
  induction names as [|f names [t IH]]; cbn [filterM filter].
  - now exists [].
  - assert (Hf : keep f w
                 = (Ret (startswith f prefix && os_isdir O w (path_of f)), w,
                    if startswith f prefix
                    then [EIsdir (path_of f) (os_isdir O w (path_of f))]
                    else [])).
    { unfold keep. now destruct (startswith f prefix). }
    unfold bind. rewrite Hf, IH. cbn.
    destruct (startswith f prefix && os_isdir O w (path_of f)); eauto.
Qed.

(** On Windows, an install that goes through: after the fetch and the
    extraction, the first name of the listing that has the prefix [ffmpeg-]
    and is a directory is the one renamed to the install directory; an
    install directory already there is removed first; then the archive is
    deleted, the success line printed and [True] returned. *)
Theorem download_ffmpeg_installs_first_match
    (W : Type) (E : env) (O : OS W) (w wa wb wr wn wc : W)
    (names others : list str) (first : str) (present : bool) :
  let fl := path_flavour E in
  let zip_path := join fl (script_dir E) [lit "ffmpeg.zip"] in
  let ffmpeg_dir := join fl (script_dir E) [lit "ffmpeg"] in
  platform_system E = lit "Windows" ->
  os_urlretrieve O w ffmpeg_url zip_path = (Ret tt, wa) ->
  os_extractall O wa zip_path (script_dir E) = (Ret tt, wb) ->
  os_listdir O wb (script_dir E) = Ret names ->
  filter (fun f => startswith f (lit "ffmpeg-")
                   && os_isdir O wb (join fl (script_dir E) [f])) names
  = first :: others ->
  os_exists O wb ffmpeg_dir = present ->
  (if present then os_rmtree O wb ffmpeg_dir else (Ret tt, wb)) = (Ret tt, wr) ->
  os_rename O wr (join fl (script_dir E) [first]) ffmpeg_dir = (Ret tt, wn) ->
  os_remove O wn zip_path = (Ret tt, wc) ->
  outcome_of (download_ffmpeg E O w) = Ret true /\
  state_of (download_ffmpeg E O w) = wc /\
  exists t,
    trace_of (download_ffmpeg E O w)
    = t ++ [EExists ffmpeg_dir present]
        ++ (if present then [ERmtree ffmpeg_dir (Ret tt)] else [])
        ++ [ERename (join fl (script_dir E) [first]) ffmpeg_dir (Ret tt);
            ERemove zip_path (Ret tt);
            EPrint (lit "✓ FFmpeg downloaded and installed successfully!"
                      ++ nl)].
Proof.
  intros fl zip_path ffmpeg_dir Hsys Hfetch Hextract Hlist Hkept Hpresent
    Hrmtree Hrename Hremove.
  destruct (filterM_reads W O (lit "ffmpeg-")
              (fun f => join fl (script_dir E) [f]) names wb) as [tf Hfilter].
  rewrite Hkept in Hfilter.
  unfold download_ffmpeg. rewrite Hsys, str_eqb_refl.
  fold fl. fold zip_path. fold ffmpeg_dir.
  unfold try_except, bind, print, console_write, console_accepts,
    urlretrieve, extractall, listdir.
  rewrite Hfetch, Hextract, Hlist.
  unfold bind in Hfilter. rewrite Hfilter.
  unfold path_exists, rmtree, rename, remove, ret. rewrite Hpresent.
  clearbody zip_path ffmpeg_dir fl.
  destruct present.
  - rewrite Hrmtree, Hrename, Hremove. cbn.
    repeat split.
    eexists (_ :: _ :: _ :: _ :: _ :: _ :: _ :: _ :: tf).
    cbn. rewrite <- ?app_assoc. reflexivity.
  - injection Hrmtree as <-. rewrite Hrename, Hremove. cbn.
    repeat split.
    eexists (_ :: _ :: _ :: _ :: _ :: _ :: _ :: _ :: tf).
    cbn. rewrite <- ?app_assoc. reflexivity.
Qed.

Lemma download_ffmpeg_installs_first_match_witness :
  outcome_of (download_ffmpeg Sim.windows (Sim.os Nt) Sim.fresh_windows)
  = Ret true /\
  os_exists (Sim.os Nt)
    (state_of (download_ffmpeg Sim.windows (Sim.os Nt) Sim.fresh_windows))
    (get_ffmpeg_path Sim.windows)
  = true.
Proof.
  split; [|reflexivity].
  refine (proj1 (download_ffmpeg_installs_first_match _ Sim.windows
                   (Sim.os Nt) Sim.fresh_windows _ _ _ _ _ _ _ _ false
                   _ _ _ _ _ _ _ _ _)).
  - reflexivity.
  - reflexivity.
  - reflexivity.
  - reflexivity.
  - reflexivity.
  - reflexivity.
  - reflexivity.
  - reflexivity.
  - reflexivity.
Defined.

(** On Windows, when the rename of the extracted directory raises, nothing
    is installed and [False] is returned after the error report; an install
    directory that was there before has already been removed, and the
    archive is not deleted. *)
Theorem download_ffmpeg_rename_fails
    (W : Type) (E : env) (O : OS W) (w wa wb wr wn : W)
    (names others : list str) (first : str) (present : bool) (e : exn) :
  let fl := path_flavour E in
  let zip_path := join fl (script_dir E) [lit "ffmpeg.zip"] in
  let ffmpeg_dir := join fl (script_dir E) [lit "ffmpeg"] in
  platform_system E = lit "Windows" ->
  os_urlretrieve O w ffmpeg_url zip_path = (Ret tt, wa) ->
  os_extractall O wa zip_path (script_dir E) = (Ret tt, wb) ->
  os_listdir O wb (script_dir E) = Ret names ->
  filter (fun f => startswith f (lit "ffmpeg-")
                   && os_isdir O wb (join fl (script_dir E) [f])) names
  = first :: others ->
  os_exists O wb ffmpeg_dir = present ->
  (if present then os_rmtree O wb ffmpeg_dir else (Ret tt, wb)) = (Ret tt, wr) ->
  os_rename O wr (join fl (script_dir E) [first]) ffmpeg_dir = (Raise e, wn) ->
  outcome_of (download_ffmpeg E O w) = Ret false /\
  state_of (download_ffmpeg E O w) = wn /\
  exists t,
    trace_of (download_ffmpeg E O w)
    = t ++ [EExists ffmpeg_dir present]
        ++ (if present then [ERmtree ffmpeg_dir (Ret tt)] else [])
        ++ [ERename (join fl (script_dir E) [first]) ffmpeg_dir (Raise e)]
        ++ download_error_report e.
Proof.
  intros fl zip_path ffmpeg_dir Hsys Hfetch Hextract Hlist Hkept Hpresent
    Hrmtree Hrename.
  destruct (filterM_reads W O (lit "ffmpeg-")
              (fun f => join fl (script_dir E) [f]) names wb) as [tf Hfilter].
  rewrite Hkept in Hfilter.
  unfold download_ffmpeg. rewrite Hsys, str_eqb_refl.
  fold fl. fold zip_path. fold ffmpeg_dir.
  unfold try_except, bind, print, console_write, console_accepts,
    urlretrieve, extractall, listdir.
  rewrite Hfetch, Hextract, Hlist.
  unfold bind in Hfilter. rewrite Hfilter.
  unfold path_exists, rmtree, rename, remove, ret. rewrite Hpresent.
  clearbody zip_path ffmpeg_dir fl.
  destruct present.
  - rewrite Hrmtree, Hrename. cbn.
    repeat split.
    eexists (_ :: _ :: _ :: _ :: _ :: _ :: _ :: _ :: tf).
    cbn. rewrite <- ?app_assoc. reflexivity.
  - injection Hrmtree as <-. rewrite Hrename. cbn.
    repeat split.
    eexists (_ :: _ :: _ :: _ :: _ :: _ :: _ :: _ :: tf).
    cbn. rewrite <- ?app_assoc. reflexivity.
Qed.

Lemma download_ffmpeg_rename_fails_witness :
  let run :=
    download_ffmpeg Sim.windows (Scenes.os_rename_denied Nt)
      Scenes.windows_stale_install in
  outcome_of run = Ret false /\
  os_exists (Scenes.os_rename_denied Nt) (state_of run) (lit "C:\app\ffmpeg")
  = false /\
  os_exists (Scenes.os_rename_denied Nt) (state_of run)
    (lit "C:\app\ffmpeg.zip")
  = true.
Proof.
  split; [|split; reflexivity].
  refine (proj1 (download_ffmpeg_rename_fails _ Sim.windows
                   (Scenes.os_rename_denied Nt) Scenes.windows_stale_install
                   _ _ _ _ _ _ _ true Scenes.access_denied
                   _ _ _ _ _ _ _ _)).
  - reflexivity.
  - reflexivity.
  - reflexivity.
  - reflexivity.
  - reflexivity.
  - reflexivity.
  - reflexivity.
  - reflexivity.
Defined.

(** ** [get_ffmpeg_path] *)

Lemma join2_ffmpeg_ends_in_g (fl : flavour) (a : str) :
  exists s, rev (join2 fl a (lit "ffmpeg")) = "g"%char :: s.
Proof.
  unfold join2. cbn [lit list_ascii_of_string].
  replace (is_sep fl "f"%char) with false by (destruct fl; reflexivity).
  destruct (rev a) as [|l ra]; [cbn; eauto|].
  destruct (is_sep fl l).
  - rewrite rev_app_distr. cbn. eauto.
  - change (a ++ sep fl :: ?b) with (a ++ [sep fl] ++ b).
    rewrite !rev_app_distr. cbn. eauto.
Qed.

(** A name that does not start with a separator, joined onto a path that
    does not end with one, goes after one separator. *)
Lemma join2_appends (fl : flavour) (a : str) (l c : ascii) (ra b : str) :
  rev a = l :: ra -> is_sep fl l = false -> is_sep fl c = false ->
  join2 fl a (c :: b) = a ++ sep fl :: c :: b.
Proof.
  intros Hrev Hl Hc. unfold join2. now rewrite Hc, Hrev, Hl.
Qed.

(** The executable that [check_ffmpeg] looks for lies inside the directory
    that [download_ffmpeg] installs into: it is that directory, a separator,
    and [bin], a separator, [ffmpeg.exe] on Windows, [ffmpeg] elsewhere. *)
Theorem get_ffmpeg_path_inside_install_dir (E : env) :
  let fl := path_flavour E in
  let ffmpeg_dir := join fl (script_dir E) [lit "ffmpeg"] in
  get_ffmpeg_path E
  = ffmpeg_dir
      ++ sep fl
      :: (if str_eqb (platform_system E) (lit "Windows")
          then lit "bin" ++ sep fl :: lit "ffmpeg.exe"
          else lit "ffmpeg").
Proof.
  intros fl ffmpeg_dir. unfold get_ffmpeg_path. fold fl. fold ffmpeg_dir.
  assert (Hg : exists s, rev ffmpeg_dir = "g"%char :: s)
    by apply join2_ffmpeg_ends_in_g.
  destruct Hg as [s Hg].
  assert (Hsep : forall c, In c (lit "gbnf") -> is_sep fl c = false).
  { intros c Hc. cbn in Hc.
    repeat (destruct Hc as [<- | Hc]; [destruct fl; reflexivity|]).
    destruct Hc. }
  destruct (str_eqb (platform_system E) (lit "Windows")).
  - unfold join. cbn [fold_left].
    change (lit "bin") with ("b"%char :: lit "in").
    change (lit "ffmpeg.exe") with ("f"%char :: lit "fmpeg.exe").
    rewrite (join2_appends fl ffmpeg_dir "g" "b" s (lit "in") Hg)
      by (apply Hsep; cbn; auto).
    rewrite (join2_appends fl _ "n" "f"
               (rev (ffmpeg_dir ++ sep fl :: lit "bi")) (lit "fmpeg.exe")).
    + rewrite <- app_assoc. reflexivity.
    + change (ffmpeg_dir ++ sep fl :: "b"%char :: lit "in")
        with (ffmpeg_dir ++ (sep fl :: lit "bi") ++ [ "n"%char ]).
      rewrite app_assoc, rev_app_distr. reflexivity.
    + apply Hsep; cbn; auto.
    + apply Hsep; cbn; auto.
  - unfold join. cbn [fold_left].
    change (lit "ffmpeg") with ("f"%char :: lit "fmpeg").
    apply (join2_appends fl ffmpeg_dir "g" "f" s (lit "fmpeg") Hg);
      apply Hsep; cbn; auto.
Qed.

(** ** [check_ffmpeg] *)

(** With no usable ffmpeg on the search path (the query exits with another
    status, or its launch raises one of the two classes named) and a file at
    the local install path, [check_ffmpeg] returns that path after the
    existence test; nothing is downloaded and nothing else is called. *)
Theorem check_ffmpeg_uses_local_copy
    (W : Type) (E : env) (O : OS W) (w w1 : W) (r : res (Z * str)) :
  os_spawn O w version_query = (r, w1) ->
  query_failed r = true ->
  os_exists O w1 (get_ffmpeg_path E) = true ->
  check_ffmpeg E O w
  = (Ret (Some (get_ffmpeg_path E)), w1,
     [ESpawn version_query r; EExists (get_ffmpeg_path E) true]).
Proof.
  intros Hspawn Hr Hex.
  rewrite (check_ffmpeg_off_path E O w w1 r Hspawn Hr). cbn zeta.
  now rewrite Hex.
Qed.

Lemma check_ffmpeg_uses_local_copy_witness :
  outcome_of (check_ffmpeg Sim.linux (Sim.os Posix) Sim.linux_local_copy)
  = Ret (Some (lit "/opt/app/ffmpeg/ffmpeg")).
Proof.
  rewrite (check_ffmpeg_uses_local_copy _ Sim.linux (Sim.os Posix)
             Sim.linux_local_copy Sim.linux_local_copy (Raise Sim.not_found)).
  - reflexivity.
  - reflexivity.
  - reflexivity.
  - reflexivity.
Defined.

(** Off Windows, with no usable ffmpeg on the search path and nothing at
    the local install path, [check_ffmpeg] returns [None]: after the query
    and the existence test it only prints, so no network call is made and
    the state is the one the query left. *)
Theorem check_ffmpeg_gives_up_off_windows
    (W : Type) (E : env) (O : OS W) (w w1 : W) (r : res (Z * str)) :
  platform_system E <> lit "Windows" ->
  os_spawn O w version_query = (r, w1) ->
  query_failed r = true ->
  os_exists O w1 (get_ffmpeg_path E) = false ->
  outcome_of (check_ffmpeg E O w) = Ret None /\
  state_of (check_ffmpeg E O w) = w1 /\
  exists prints,
    trace_of (check_ffmpeg E O w)
    = [ESpawn version_query r; EExists (get_ffmpeg_path E) false] ++ prints /\
    forall ev, In ev prints -> exists line, ev = EPrint line.
Proof.
  intros Hsys Hspawn Hr Hex.
  rewrite (check_ffmpeg_off_path E O w w1 r Hspawn Hr). cbn zeta.
  rewrite Hex.
  pose proof (str_eqb_eq (platform_system E) (lit "Windows")) as Heq.
  unfold download_ffmpeg.
  destruct (str_eqb (platform_system E) (lit "Windows"));
    [destruct Hsys; now apply Heq|].
  cbn. repeat split. eexists. split; [reflexivity|].
  intros ev Hin. cbn in Hin.
  repeat (destruct Hin as [<- | Hin]; [eauto|]). destruct Hin.
Qed.

Lemma check_ffmpeg_gives_up_off_windows_witness :
  outcome_of (check_ffmpeg Sim.linux (Sim.os Posix) Scenes.linux_bare)
  = Ret None.
Proof.
  refine (proj1 (check_ffmpeg_gives_up_off_windows _ Sim.linux (Sim.os Posix)
                   Scenes.linux_bare Scenes.linux_bare (Raise Sim.not_found)
                   _ _ _ _)).
  - discriminate.
  - reflexivity.
  - reflexivity.
  - reflexivity.
Defined.

(** The only child process [check_ffmpeg] launches is the version query of
    the bare name ['ffmpeg'], once, and before anything else; the local
    executable is never run. *)
Theorem check_ffmpeg_launches_only_the_query
    (W : Type) (E : env) (O : OS W) (w : W) :
  exists t,
    trace_of (check_ffmpeg E O w)
    = ESpawn version_query (fst (os_spawn O w version_query)) :: t /\
    forallb not_spawn t = true.
Proof.
  destruct (os_spawn O w version_query) as [r w1] eqn:Hspawn. cbn [fst].
  destruct (version_query_cases r) as [Hr|[Hr|[e [-> He]]]].
  - apply query_succeeded_ret in Hr. destruct Hr as [err ->].
    rewrite (check_ffmpeg_on_path E O w w1 err Hspawn). now exists [].
  - rewrite (check_ffmpeg_off_path E O w w1 r Hspawn Hr). cbn zeta.
    destruct (os_exists O w1 (get_ffmpeg_path E)); [eexists; split; reflexivity|].
    pose proof (download_ffmpeg_not_spawn E O w1) as Hns.
    destruct (download_ffmpeg E O w1) as [[[[|]|e] w2] t2]; cbn in Hns |- *;
      eexists; (split; [reflexivity|]); cbn;
      rewrite ?forallb_app, Hns; reflexivity.
  - rewrite (check_ffmpeg_propagates E O w w1 e Hspawn He). now exists [].
Qed.

(** After a download that reports success, [check_ffmpeg] returns the local
    install path when the file is there. *)
Theorem check_ffmpeg_after_install
    (W : Type) (E : env) (O : OS W) (w w1 w2 : W) (r : res (Z * str))
    (t : list event) :
  os_spawn O w version_query = (r, w1) ->
  query_failed r = true ->
  os_exists O w1 (get_ffmpeg_path E) = false ->
  download_ffmpeg E O w1 = (Ret true, w2, t) ->
  os_exists O w2 (get_ffmpeg_path E) = true ->
  check_ffmpeg E O w
  = (Ret (Some (get_ffmpeg_path E)), w2,
     [ESpawn version_query r; EExists (get_ffmpeg_path E) false]
       ++ t ++ [EExists (get_ffmpeg_path E) true]).
Proof.
  intros Hspawn Hr Hex1 Hd Hex2.
  rewrite (check_ffmpeg_off_path E O w w1 r Hspawn Hr). cbn zeta.
  now rewrite Hex1, Hd, Hex2.
Qed.

Lemma check_ffmpeg_after_install_witness :
  outcome_of (check_ffmpeg Sim.windows (Sim.os Nt) Sim.fresh_windows)
  = Ret (Some (lit "C:\app\ffmpeg\bin\ffmpeg.exe")).
Proof.
  rewrite (check_ffmpeg_after_install _ Sim.windows (Sim.os Nt)
             Sim.fresh_windows Sim.fresh_windows
             (state_of (download_ffmpeg Sim.windows (Sim.os Nt)
                          Sim.fresh_windows))
             (Raise Sim.not_found)
             (trace_of (download_ffmpeg Sim.windows (Sim.os Nt)
                          Sim.fresh_windows))).
  - reflexivity.
  - reflexivity.
  - reflexivity.
  - reflexivity.
  - reflexivity.
  - reflexivity.
Defined.

(** ** [convert_video] *)

Lemma get_ffmpeg_path_length (E : env) :
  (12 <= length (get_ffmpeg_path E))%nat.
Proof.
  unfold get_ffmpeg_path, join. cbn [fold_left].
  set (fl := path_flavour E).
  assert (Hf : forall s, is_sep fl (List.hd "f"%char (lit "f" ++ s)) = false)
    by (intros s; destruct fl; reflexivity).
  pose proof (join2_length fl (script_dir E) (lit "ffmpeg")
                (Hf (lit "fmpeg"))) as H1.
  set (ffmpeg_dir := join2 fl (script_dir E) (lit "ffmpeg")) in *.
  destruct (str_eqb (platform_system E) (lit "Windows")).
  - assert (Hb : is_sep fl "b"%char = false) by (destruct fl; reflexivity).
    pose proof (join2_length fl ffmpeg_dir (lit "bin") Hb) as H2.
    pose proof (join2_length fl (join2 fl ffmpeg_dir (lit "bin"))
                  (lit "ffmpeg.exe") (Hf (lit "fmpeg.exe"))) as H3.
    cbn [lit list_ascii_of_string length] in *. lia.
  - pose proof (join2_length fl ffmpeg_dir (lit "ffmpeg")
                  (Hf (lit "fmpeg"))) as H2.
    cbn [lit list_ascii_of_string length] in *. lia.
Qed.

(** A reference that [check_ffmpeg] returns is never the empty string. *)
Lemma check_ffmpeg_reference_not_empty
    (W : Type) (E : env) (O : OS W) (w w1 : W) (exe : str) (t1 : list event) :
  check_ffmpeg E O w = (Ret (Some exe), w1, t1) -> exe <> [].
Proof.
  intros Hcheck.
  destruct (os_spawn O w version_query) as [r w0] eqn:Hspawn.
  destruct (version_query_cases r) as [Hr|[Hr|[e [-> He]]]].
  - apply query_succeeded_ret in Hr. destruct Hr as [err ->].
    rewrite (check_ffmpeg_on_path E O w w0 err Hspawn) in Hcheck.
    injection Hcheck as <- _ _. discriminate.
  - assert (Hlocal : get_ffmpeg_path E <> []).
    { intros Hnil. pose proof (get_ffmpeg_path_length E) as Hlen.
      rewrite Hnil in Hlen. cbn in Hlen. lia. }
    rewrite (check_ffmpeg_off_path E O w w0 r Hspawn Hr) in Hcheck.
    cbn zeta in Hcheck.
    destruct (os_exists O w0 (get_ffmpeg_path E)).
    + injection Hcheck as <- _ _. exact Hlocal.
    + destruct (download_ffmpeg E O w0) as [[[[|]|e] w2] t2];
        try discriminate.
      destruct (os_exists O w2 (get_ffmpeg_path E)); [|discriminate].
      injection Hcheck as <- _ _. exact Hlocal.
  - rewrite (check_ffmpeg_propagates E O w w0 e Hspawn He) in Hcheck.
    discriminate.
Qed.

(** With the input present, every reference [check_ffmpeg] returns is used:
    [convert_video] launches one child process, whose arguments are that
    reference, [-i] and the input path as given, the fixed scaling and audio
    options, [-y] and the output path; after the launch it only prints, and
    it always returns a boolean.  The boolean is [True] exactly when
    [subprocess.run] returns with status 0, that is when the child exits
    with 0 and its captured standard error decodes as text; it is [False]
    also when the launch or the decoding raises.  The state it ends in is
    the one the child process left. *)
Theorem convert_video_runs_the_located_ffmpeg
    (W : Type) (E : env) (O : OS W) (w w1 : W) (p exe : str)
    (t1 : list event) :
  os_exists O w p = true ->
  check_ffmpeg E O w = (Ret (Some exe), w1, t1) ->
  let out := output_path (path_flavour E) p in
  let argv := [exe; lit "-i"; p; lit "-vf"; lit "scale=1920:1080,setsar=1";
               lit "-c:a"; lit "copy"; lit "-y"; out] in
  let r := fst (os_spawn O w1 argv) in
  exists (ok : bool) (report : list event),
    convert_video E O p w
    = (Ret ok, snd (os_spawn O w1 argv),
       [EExists p true] ++ t1
         ++ [EPrint (lit "Converting: " ++ path_basename E p);
             EPrint (lit "Output will be: " ++ path_basename E out);
             EPrint (nl ++ lit "Processing... (this may take a while)");
             ESpawn argv r]
         ++ report) /\
    (forall ev, In ev report -> exists line, ev = EPrint line) /\
    (ok = true <->
     exists raw text, r = Ret (0, raw) /\ locale_decode E raw = Ret text).
Proof.
  intros Hex Hcheck out argv r.
  exists (query_succeeded (run_outcome E r)),
         (conversion_report out (run_outcome E r)).
  split; [|split].
  - exact (convert_video_invokes E O p exe w w1 t1 Hex Hcheck
             (check_ffmpeg_reference_not_empty W E O w w1 exe t1 Hcheck)).
  - intros ev Hin.
    destruct (run_outcome E r) as [[status text]|e]; cbn in Hin.
    + destruct (status =? 0); cbn in Hin;
        repeat (destruct Hin as [<- | Hin]; [eauto|]); destruct Hin.
    + destruct Hin as [<- | []]. eauto.
  - destruct r as [[status raw]|e]; cbn [run_outcome].
    + destruct (locale_decode E raw) as [text|e] eqn:Hdecode; cbn; split.
      * intros H. apply Z.eqb_eq in H. subst. eauto.
      * intros (raw' & text' & [= -> ->] & _). reflexivity.
      * discriminate.
      * intros (raw' & text' & [= -> ->] & H). congruence.
    + cbn. split; [discriminate|]. intros (raw & text & H & _). discriminate.
Qed.

Lemma convert_video_runs_the_located_ffmpeg_witness :
  outcome_of
    (convert_video Sim.linux (Sim.os Posix) (lit "/home/u/clip.mp4")
       Sim.linux_local_copy)
  = Ret true.
Proof.
  destruct (convert_video_runs_the_located_ffmpeg _ Sim.linux (Sim.os Posix)
              Sim.linux_local_copy Sim.linux_local_copy
              (lit "/home/u/clip.mp4") (lit "/opt/app/ffmpeg/ffmpeg")
              [ESpawn version_query (Raise Sim.not_found);
               EExists (lit "/opt/app/ffmpeg/ffmpeg") true]
              eq_refl eq_refl) as (ok & report & Hrun & _ & Hok).
  rewrite Hrun. cbn [outcome_of fst]. f_equal. apply Hok.
  exists [], []. split; reflexivity.
Defined.

(** When the launch of the conversion raises (ffmpeg gone, no permission),
    [convert_video] takes the exception: it prints one line with the text
    of the exception and returns [False]. *)
Theorem convert_video_launch_raises
    (W : Type) (E : env) (O : OS W) (w w1 w2 : W) (p exe : str)
    (t1 : list event) (e : exn) :
  os_exists O w p = true ->
  check_ffmpeg E O w = (Ret (Some exe), w1, t1) ->
  os_spawn O w1 (command exe p (output_path (path_flavour E) p))
  = (Raise e, w2) ->
  outcome_of (convert_video E O p w) = Ret false /\
  state_of (convert_video E O p w) = w2 /\
  exists t,
    trace_of (convert_video E O p w)
    = t ++ [ESpawn (command exe p (output_path (path_flavour E) p)) (Raise e);
            EPrint (nl ++ lit "✗ Error during conversion: " ++ exn_str e)].
Proof.
  intros Hex Hcheck Hspawn.
  rewrite (convert_video_invokes E O p exe w w1 t1 Hex Hcheck
             (check_ffmpeg_reference_not_empty W E O w w1 exe t1 Hcheck)).
  rewrite Hspawn. cbn [outcome_of state_of trace_of fst snd].
  repeat split.
  eexists ([EExists p true] ++ t1 ++ [_; _; _]).
  cbn [conversion_report]. rewrite <- !app_assoc. reflexivity.
Qed.

Lemma convert_video_launch_raises_witness :
  outcome_of
    (convert_video Sim.linux (Sim.os Posix) (lit "/home/u/a.b/clip.mp4")
       (Sim.linux_with_ffmpeg (Raise Sim.permission_denied)))
  = Ret false.
Proof.
  refine (proj1 (convert_video_launch_raises _ Sim.linux (Sim.os Posix)
                   (Sim.linux_with_ffmpeg (Raise Sim.permission_denied)) _ _
                   (lit "/home/u/a.b/clip.mp4") (lit "ffmpeg") [_]
                   Sim.permission_denied _ _ _)).
  - reflexivity.
  - reflexivity.
  - reflexivity.
Defined.

(** When [check_ffmpeg] returns [None], [convert_video] prints the banner
    that ffmpeg could not be had and returns [False]; no conversion is
    launched and the state is the one [check_ffmpeg] left. *)
Theorem convert_video_without_ffmpeg
    (W : Type) (E : env) (O : OS W) (w w1 : W) (p : str) (t1 : list event) :
  os_exists O w p = true ->
  check_ffmpeg E O w = (Ret None, w1, t1) ->
  convert_video E O p w
  = (Ret false, w1,
     [EExists p true] ++ t1
       ++ [EPrint (nl ++ times (lit "!") 60);
           EPrint (lit "ERROR: Could not get ffmpeg!");
           EPrint (times (lit "!") 60)]).
Proof.
  intros Hex Hcheck.
  unfold convert_video. unfold bind at 1. unfold path_exists at 1.
  rewrite Hex. cbn [negb]. unfold bind at 1. rewrite Hcheck. reflexivity.
Qed.

Lemma convert_video_without_ffmpeg_witness :
  outcome_of
    (convert_video Sim.linux (Sim.os Posix) (lit "/home/u/clip.mp4")
       Scenes.linux_bare)
  = Ret false.
Proof.
  rewrite (convert_video_without_ffmpeg _ Sim.linux (Sim.os Posix)
             Scenes.linux_bare Scenes.linux_bare (lit "/home/u/clip.mp4")
             (trace_of (check_ffmpeg Sim.linux (Sim.os Posix)
                          Scenes.linux_bare))).
  - reflexivity.
  - reflexivity.
  - reflexivity.
Defined.

(** ** The output path *)

(** The two parts [os.path.splitext] returns always concatenate to the
    path it was given. *)
Lemma splitext_concat (fl : flavour) (p : str) :
  fst (splitext fl p) ++ snd (splitext fl p) = p.
Proof.
  unfold splitext, _splitext.
  match goal with |- context [if ?c then _ else _] => destruct c end;
    cbn [fst snd].
  - unfold upto, from. apply firstn_skipn.
  - apply app_nil_r.
Qed.

(** For every input path, with or without an extension, the output path
    is the input path with the five characters [_16-9] put in somewhere: the
    part before them and the part after them concatenate to the input path.
    So the output path is five characters longer, and as a string it is
    never the input path. *)
Theorem output_path_is_not_the_input (fl : flavour) (p : str) :
  (exists filename ext,
      p = filename ++ ext /\
      output_path fl p = filename ++ lit "_16-9" ++ ext) /\
  length (output_path fl p) = (length p + 5)%nat /\
  output_path fl p <> p.
Proof.
  assert (Hparts : exists filename ext,
             p = filename ++ ext /\
             output_path fl p = filename ++ lit "_16-9" ++ ext).
  { unfold output_path. pose proof (splitext_concat fl p) as Hcat.
    destruct (splitext fl p) as [filename ext]. cbn [fst snd] in Hcat.
    now exists filename, ext. }
  assert (Hlen : length (output_path fl p) = (length p + 5)%nat).
  { destruct Hparts as (filename & ext & Hp & Hout).
    rewrite Hout, Hp, !length_app. cbn [lit list_ascii_of_string length].
    lia. }
  split; [exact Hparts|]. split; [exact Hlen|].
  intros Heq. rewrite Heq in Hlen. lia.
Qed.

(** A flavour's separators are its [sep] and its [altsep]. *)
Lemma is_sep_cases (fl : flavour) (c : ascii) :
  is_sep fl c = true -> c = sep fl \/ altsep fl = Some c.
Proof.
  unfold is_sep. intros H. apply orb_true_iff in H. destruct H as [H|H].
  - left. now apply Ascii.eqb_eq.
  - right. destruct (altsep fl) as [a|]; [|discriminate].
    apply Ascii.eqb_eq in H. now subst.
Qed.

(** A path whose last component has no dot has no extension, whatever dots
    the directories before it have: the suffix goes at the very end. *)
Theorem output_path_without_extension (fl : flavour) (dir name : str) :
  (dir = [] \/ exists d c, dir = d ++ [c] /\ is_sep fl c = true) ->
  (forall c, In c name -> c <> dot /\ is_sep fl c = false) ->
  output_path fl (dir ++ name) = dir ++ name ++ lit "_16-9".
Proof.
  intros Hdir Hname.
  assert (Hnodot : ~ In dot name) by (intros H; now destruct (Hname _ H)).
  assert (Hnosep : forall c, is_sep fl c = true -> ~ In c name).
  { intros c Hc Hin. destruct (Hname _ Hin). congruence. }
  assert (Hsep : is_sep fl (sep fl) = true).
  { unfold is_sep. now rewrite Ascii.eqb_refl. }
  assert (Hle : forall i,
             i = match altsep fl with
                 | Some a => Z.max (rfind (sep fl) (dir ++ name))
                                   (rfind a (dir ++ name))
                 | None => rfind (sep fl) (dir ++ name)
                 end ->
             (i <? rfind dot (dir ++ name)) = false).
  { intros i ->. apply Z.ltb_ge.
    rewrite (rfind_app_absent dot dir name Hnodot).
    destruct Hdir as [-> | (d & c & -> & Hc)].
    - cbn [rfind app].
      pose proof (rfind_range (sep fl) name).
      destruct (altsep fl); lia.
    - pose proof (rfind_range dot (d ++ [c])) as Hr.
      rewrite length_app in Hr. cbn [length] in Hr.
      assert (Hlast : rfind c ((d ++ [c]) ++ name) = Z.of_nat (length d)).
      { rewrite <- app_assoc. apply rfind_last. now apply Hnosep. }
      destruct (is_sep_cases fl c Hc) as [-> | Halt].
      + rewrite Hlast. destruct (altsep fl); lia.
      + rewrite Halt, Hlast. lia. }
  unfold output_path, splitext, _splitext.
  rewrite (Hle _ eq_refl). cbn [andb].
  now rewrite app_nil_r, <- app_assoc.
Qed.

Lemma output_path_without_extension_witness :
  output_path Posix (lit "/home/u/a.b/README")
  = lit "/home/u/a.b/README_16-9".
Proof.
  apply (output_path_without_extension Posix (lit "/home/u/a.b/")
           (lit "README")).
  - right. exists (lit "/home/u/a.b"), "/"%char. split; reflexivity.
  - intros c Hc. cbn in Hc.
    repeat (destruct Hc as [<- | Hc]; [split; [discriminate|reflexivity]|]).
    destruct Hc.
Defined.

(** The output path keeps the extension of the input: split again, it
    gives the stem with the suffix, and the same extension (which is how
    ffmpeg picks the container of the output). *)
Theorem output_path_keeps_the_extension (fl : flavour) (dir stem e : str) :
  (forall c, In c stem -> is_sep fl c = false) ->
  (exists c, In c stem /\ c <> dot) ->
  (forall c, In c e -> is_sep fl c = false /\ c <> dot) ->
  splitext fl (output_path fl (dir ++ stem ++ dot :: e))
  = (dir ++ stem ++ lit "_16-9", dot :: e).
Proof.
  intros Hstem Hx He.
  rewrite (output_path_stem_ext fl dir stem e Hstem Hx He).
  replace (dir ++ stem ++ lit "_16-9" ++ dot :: e)
    with (dir ++ (stem ++ lit "_16-9") ++ dot :: e)
    by now rewrite <- app_assoc.
  rewrite splitext_stem_ext; [reflexivity| | |exact He].
  - intros c Hc. apply in_app_or in Hc. destruct Hc as [Hc|Hc].
    + now apply Hstem.
    + cbn in Hc.
      repeat (destruct Hc as [<- | Hc]; [destruct fl; reflexivity|]).
      destruct Hc.
  - destruct Hx as [c [Hc Hdot]]. exists c. split; [|exact Hdot].
    apply in_or_app. now left.
Qed.

Lemma output_path_keeps_the_extension_witness :
  splitext Nt (output_path Nt (lit "C:\clips\holiday.mp4"))
  = (lit "C:\clips\holiday_16-9", lit ".mp4").
Proof.
  apply (output_path_keeps_the_extension Nt (lit "C:\clips\")
           (lit "holiday") (lit "mp4")).
  - intros c Hc. cbn in Hc.
    repeat (destruct Hc as [<- | Hc]; [reflexivity|]). destruct Hc.
  - exists "h"%char. split; [now left | discriminate].
  - intros c Hc. cbn in Hc.
    repeat (destruct Hc as [<- | Hc]; [split; [reflexivity|discriminate]|]).
    destruct Hc.
Defined.

(** ** The command-line argument *)

Lemma lstrip_split (chars s : str) :
  exists a, s = a ++ lstrip chars s /\ forallb (fun c => mem c chars) a = true.
Proof.
  induction s as [|c s [a [Hs Ha]]]; cbn [lstrip].
  - now exists [].
  - destruct (mem c chars) eqn:Hc.
    + exists (c :: a). cbn. rewrite Hc, Ha. split; [now f_equal|reflexivity].
    + now exists [].
Qed.

Lemma rstrip_split (chars s : str) :
  exists b, s = rstrip chars s ++ b /\ forallb (fun c => mem c chars) b = true.
Proof.
  unfold rstrip. destruct (lstrip_split chars (rev s)) as [a [Hs Ha]].
  exists (rev a). split.
  - rewrite <- rev_app_distr, <- Hs. symmetry. apply rev_involutive.
  - rewrite forallb_forall in *. intros c Hc. apply Ha. now apply in_rev.
Qed.

Lemma strip_split (chars s : str) :
  exists a b,
    s = a ++ strip chars s ++ b /\
    forallb (fun c => mem c chars) a = true /\
    forallb (fun c => mem c chars) b = true.
Proof.
  unfold strip. destruct (lstrip_split chars s) as [a [Hs Ha]].
  destruct (rstrip_split chars (lstrip chars s)) as [b [Hx Hb]].
  exists a, b. repeat split; try assumption.
  now rewrite <- Hx.
Qed.

Lemma lstrip_head (chars s : str) :
  match lstrip chars s with c :: _ => mem c chars = false | [] => True end.
Proof.
  induction s as [|c s IH]; cbn [lstrip]; [exact I|].
  destruct (mem c chars) eqn:Hc; [exact IH|exact Hc].
Qed.

Lemma strip_ends (chars s : str) :
  match strip chars s with c :: _ => mem c chars = false | [] => True end /\
  match rev (strip chars s) with
  | c :: _ => mem c chars = false
  | [] => True
  end.
Proof.
  split.
  - unfold strip.
    pose proof (lstrip_head chars s) as Hh.
    destruct (rstrip_split chars (lstrip chars s)) as [b [Hx _]].
    destruct (rstrip chars (lstrip chars s)) as [|c t]; [exact I|].
    rewrite Hx in Hh. exact Hh.
  - unfold strip, rstrip. rewrite rev_involutive. apply lstrip_head.
Qed.

(** Cleaning the argument only takes quote characters off its two ends:
    the argument is the cleaned path between a run of quotes and a run of
    quotes.  A path without quotes at its ends is left as it is, and no
    character inside is touched. *)
Theorem clean_path_only_strips_quotes (s : str) :
  exists a b,
    s = a ++ clean_path s ++ b /\
    forall c, In c (a ++ b) -> c = dquote \/ c = squote.
Proof.
  unfold clean_path.
  destruct (strip_split [dquote] s) as (a1 & b1 & Hs & Ha1 & Hb1).
  destruct (strip_split [squote] (strip [dquote] s))
    as (a2 & b2 & Hx & Ha2 & Hb2).
  exists (a1 ++ a2), (b2 ++ b1). split.
  - rewrite Hs at 1. rewrite Hx at 1. now rewrite <- !app_assoc.
  - assert (Hq : forall q l c, forallb (fun c => mem c [q]) l = true ->
                               In c l -> c = q).
    { intros q l c Hl Hc. rewrite forallb_forall in Hl. apply Hl in Hc.
      cbn in Hc. rewrite orb_false_r in Hc. now apply Ascii.eqb_eq. }
    intros c Hc. rewrite !in_app_iff in Hc.
    destruct Hc as [[Hc|Hc]|[Hc|Hc]]; eauto.
Qed.

(** The cleaned path never begins or ends with a single quote.  (It can
    still begin or end with a double quote, when single quotes were around
    the double ones: the double quotes are stripped first.) *)
Theorem clean_path_has_no_single_quote_at_its_ends (s t : str) :
  clean_path s <> squote :: t /\ clean_path s <> t ++ [squote].
Proof.
  unfold clean_path.
  destruct (strip_ends [squote] (strip [dquote] s)) as [Hh Hl].
  split; intros Heq; rewrite Heq in *.
  - cbn in Hh. discriminate.
  - rewrite rev_app_distr in Hl. cbn in Hl. discriminate.
Qed.

(** ** [main] *)

(** Without an argument [main] prints the banner and the usage, waits at
    the prompt and ends with status 1; it tests no path and launches
    nothing.  (An exception of the prompt, such as the end of input,
    leaves [main].) *)
Theorem main_without_argument
    (W : Type) (E : env) (O : OS W) (w w' : W) (argv : list str)
    (r : res str) :
  (length argv < 2)%nat ->
  os_input O w (nl ++ lit "Press Enter to exit...") = (r, w') ->
  main E O argv w
  = (match r with Ret _ => Ret 1 | Raise e => Raise e end, w',
     main_banner
       ++ [EPrint (lit "Usage: Drag and drop a video file onto this script");
           EPrint (lit "Or run: python script.py <video_file>");
           EInput (nl ++ lit "Press Enter to exit...") r]).
Proof.
  intros Hlen Hin.
  assert (Hargv : argv = [] \/ exists prog, argv = [prog]).
  { destruct argv as [|prog [|arg rest]]; cbn in Hlen; eauto; lia. }
  unfold main, bind, print, console_write, console_accepts, input.
  destruct Hargv as [-> | [prog ->]]; rewrite Hin; destruct r; reflexivity.
Qed.

Lemma main_without_argument_witness :
  run_script Sim.linux (Sim.os Posix) [lit "4.3.py"] Scenes.linux_bare
  = Exits 1.
Proof.
  unfold run_script.
  rewrite (main_without_argument _ Sim.linux (Sim.os Posix) Scenes.linux_bare
             Scenes.linux_bare [lit "4.3.py"] (Ret [])).
  - reflexivity.
  - cbn. lia.
  - reflexivity.
Defined.

(** With an argument, the run ends with status 0 when [convert_video]
    returned [True] and with status 1 when it returned [False], provided
    the closing prompt returns; when the prompt raises (the end of input on
    a closed console), the run ends in a traceback, also after a conversion
    that succeeded. *)
Theorem run_script_exit_status
    (W : Type) (E : env) (O : OS W) (w w1 w2 : W) (prog arg : str)
    (rest : list str) (ok : bool) (t1 : list event) (r : res str) :
  convert_video E O (clean_path arg) w = (Ret ok, w1, t1) ->
  os_input O w1 (lit "Press Enter to exit...") = (r, w2) ->
  run_script E O (prog :: arg :: rest) w
  = match r with
    | Ret _ => Exits (if ok then 0 else 1)
    | Raise e => Traceback e
    end.
Proof.
  intros Hconv Hin. unfold run_script, main, bind, print, input.
  cbn [console_write console_accepts]. rewrite Hconv, Hin. destruct r; reflexivity.
Qed.

Lemma run_script_exit_status_witness :
  run_script Sim.linux (Sim.os Posix)
    [lit "4.3.py"; lit "/home/u/a.b/clip.mp4"] Scenes.linux_no_console
  = Traceback Scenes.end_of_file.
Proof.
  rewrite (run_script_exit_status _ Sim.linux (Sim.os Posix)
             Scenes.linux_no_console Scenes.linux_no_console
             Scenes.linux_no_console (lit "4.3.py")
             (lit "/home/u/a.b/clip.mp4") [] true
             (trace_of
                (convert_video Sim.linux (Sim.os Posix)
                   (lit "/home/u/a.b/clip.mp4") Scenes.linux_no_console))
             (Raise Scenes.end_of_file)).
  - reflexivity.
  - reflexivity.
  - reflexivity.
Defined.

(** A run on a path that does not exist: after the banner and the path as
    cleaned, the existence test fails, the error line is printed, and the
    run ends with status 1 once the prompt returns.  No child process is
    launched, nothing is downloaded, and the state is the one the prompt
    left. *)
Theorem main_on_a_missing_file
    (W : Type) (E : env) (O : OS W) (w w' : W) (prog arg line : str)
    (rest : list str) :
  os_exists O w (clean_path arg) = false ->
  os_input O w (lit "Press Enter to exit...") = (Ret line, w') ->
  main E O (prog :: arg :: rest) w
  = (Ret 1, w',
     main_banner
       ++ [EPrint (lit "Received file: " ++ clean_path arg);
           EPrint [];
           EExists (clean_path arg) false;
           EPrint (lit "Error: File not found: " ++ clean_path arg);
           EPrint [];
           EInput (lit "Press Enter to exit...") (Ret line)]).
Proof.
  intros Hex Hin.
  assert (Hconv :
    convert_video E O (clean_path arg) w
    = (Ret false, w,
       [EExists (clean_path arg) false;
        EPrint (lit "Error: File not found: " ++ clean_path arg)])).
  { unfold convert_video, bind, path_exists, print, console_write,
      console_accepts.
    now rewrite Hex. }
  unfold main, bind, print, input. cbn [console_write console_accepts].
  rewrite Hconv, Hin. reflexivity.
Qed.

Lemma main_on_a_missing_file_witness :
  run_script Sim.linux (Sim.os Posix)
    [lit "4.3.py"; lit "'/home/u/gone.mp4'"] Scenes.linux_bare
  = Exits 1.
Proof.
  unfold run_script.
  rewrite (main_on_a_missing_file _ Sim.linux (Sim.os Posix)
             Scenes.linux_bare Scenes.linux_bare (lit "4.3.py")
             (lit "'/home/u/gone.mp4'") [] []).
  - reflexivity.
  - reflexivity.
  - reflexivity.
Defined.

(** ** Exceptions and the console

    Here the console is any console: a write may raise. *)

Section Console_facts.

Context {W : Type}.
Variable C : Console W.
Variable E : env.
Variable O : OS W.

Lemma raises_only_ret {A} (P : exn -> Prop) (a : A) :
  raises_only P (ret a : M W A).
Proof. intros w e H. discriminate. Qed.

Lemma raises_only_bind {A B} (P : exn -> Prop) (m : M W A) (k : A -> M W B) :
  raises_only P m -> (forall a, raises_only P (k a)) ->
  raises_only P (bind m k).
Proof.
  intros Hm Hk w e. unfold bind. specialize (Hm w).
  destruct (m w) as [[[a|e'] w1] t1]; cbn in Hm |- *.
  - specialize (Hk a w1 e). destruct (k a w1) as [[r w2] t2]. exact Hk.
  - intros [= <-]. now apply Hm.
Qed.

(** Out of a [try] with [except Exception] comes only what its handler
    raises. *)
Lemma raises_only_try_any {A} (P : exn -> Prop) (body : M W A)
    (handler : exn -> M W A) :
  (forall e, raises_only P (handler e)) ->
  raises_only P (try_except body any_exception handler).
Proof.
  intros Hh w e. unfold try_except.
  destruct (body w) as [[[a|e'] w1] t1]; [discriminate|].
  cbn [any_exception]. specialize (Hh e' w1 e).
  destruct (handler e' w1) as [[r w2] t2]. exact Hh.
Qed.

Lemma raises_only_print (line : str) :
  raises_only (from_console C) (print (C := C) line).
Proof.
  intros w e. unfold print.
  destruct (console_write w line) as [u|e'] eqn:Hw; [discriminate|].
  intros [= <-]. now exists w, line.
Qed.

Lemma raises_only_path_exists (P : exn -> Prop) (p : str) :
  raises_only P (path_exists O p).
Proof. intros w e H. discriminate. Qed.

(** What leaves a sequence of prints that ends in [ret]. *)
Ltac prints :=
  repeat first
    [ apply raises_only_ret
    | apply raises_only_print
    | apply raises_only_path_exists
    | apply raises_only_bind; [|intros ?] ].

Lemma download_ffmpeg_raises_only :
  raises_only (from_console C) (download_ffmpeg (C := C) E O).
Proof.
  unfold download_ffmpeg.
  do 3 (apply raises_only_bind; [apply raises_only_print|intros _]).
  apply raises_only_try_any. intros e. prints.
Qed.

(** The first step of [check_ffmpeg], which writes nothing: it gives a
    boolean, or the exception of the launch when the [except] clause does
    not name its class. *)
Lemma path_check_raises (w : W) (e : exn) :
  outcome_of
    (try_except
       (bind (subprocess_run E O version_query true false)
          (fun _ => ret true))
       called_process_or_not_found (fun _ => ret false) w)
  = Raise e ->
  fst (os_spawn O w version_query) = Raise e /\
  called_process_or_not_found e = false.
Proof.
  unfold try_except, bind, subprocess_run, bind, spawn.
  destruct (os_spawn O w version_query) as [[[status raw]|e'] w1]; cbn.
  - destruct (status =? 0); cbn; discriminate.
  - destruct (called_process_or_not_found e') eqn:He'; cbn; [discriminate|].
    intros [= <-]. now split.
Qed.

Lemma bind_outcome {A B} (m : M W A) (k : A -> M W B) (w : W) :
  outcome_of (bind m k w)
  = match outcome_of (m w) with
    | Ret a => outcome_of (k a (state_of (m w)))
    | Raise e => Raise e
    end.
Proof.
  unfold bind. destruct (m w) as [[[a|e] w1] t1]; cbn; [|reflexivity].
  now destruct (k a w1) as [[r w2] t2].
Qed.

Lemma bind_raises {A B} (m : M W A) (k : A -> M W B) (w : W) (e : exn) :
  outcome_of (bind m k w) = Raise e ->
  outcome_of (m w) = Raise e \/
  exists a w1, outcome_of (k a w1) = Raise e.
Proof.
  unfold bind. destruct (m w) as [[[a|e'] w1] t1]; cbn.
  - intros H. right. exists a, w1. destruct (k a w1) as [[r w2] t2]. exact H.
  - intros [= <-]. now left.
Qed.

Lemma check_ffmpeg_raises (w : W) (e : exn) :
  outcome_of (check_ffmpeg (C := C) E O w) = Raise e ->
  from_console C e \/
  (fst (os_spawn O w version_query) = Raise e /\
   called_process_or_not_found e = false).
Proof.
  unfold check_ffmpeg. intros H. apply bind_raises in H.
  destruct H as [H|(on_path & w1 & H)].
  - right. now apply path_check_raises.
  - left. revert H. generalize w1 e.
    change (raises_only (from_console C)
              (if on_path then ret (Some (lit "ffmpeg"))
               else
                 bind (path_exists O (get_ffmpeg_path E))
                   (fun present =>
                      if present then ret (Some (get_ffmpeg_path E))
                      else
                        bind (download_ffmpeg (C := C) E O)
                          (fun downloaded =>
                             if downloaded
                             then
                               bind (path_exists O (get_ffmpeg_path E))
                                 (fun present =>
                                    if present
                                    then ret (Some (get_ffmpeg_path E))
                                    else ret None)
                             else ret None)))).
    destruct on_path; [apply raises_only_ret|].
    apply raises_only_bind; [apply raises_only_path_exists|].
    intros present. destruct present; [apply raises_only_ret|].
    apply raises_only_bind; [apply download_ffmpeg_raises_only|].
    intros downloaded. destruct downloaded; [|apply raises_only_ret].
    apply raises_only_bind; [apply raises_only_path_exists|].
    intros present. destruct present; apply raises_only_ret.
Qed.

End Console_facts.

(** An exception leaves [download_ffmpeg] only when a write to the console
    raises it (the banner before the [try], or a line of the handler):
    every exception of the fetch, the extraction, the listing, the removal
    of an old install, the rename and the deletion of the archive is taken
    by the handler.  On a console that takes every line [download_ffmpeg]
    therefore always returns a boolean. *)
Theorem download_ffmpeg_raises_only_from_console
    (W : Type) (C : Console W) (E : env) (O : OS W) (w : W) :
  (forall e,
      outcome_of (download_ffmpeg (C := C) E O w) = Raise e ->
      from_console C e) /\
  ((forall w' line, console_write (Console := C) w' line = Ret tt) ->
   exists ok : bool, outcome_of (download_ffmpeg (C := C) E O w) = Ret ok).
Proof.
  assert (Hraise : forall e,
             outcome_of (download_ffmpeg (C := C) E O w) = Raise e ->
             from_console C e)
    by (intros e; apply download_ffmpeg_raises_only).
  split; [exact Hraise|].
  intros Haccepts.
  destruct (outcome_of (download_ffmpeg (C := C) E O w)) as [ok|e] eqn:Hout.
  - now exists ok.
  - destruct (Hraise e eq_refl) as (w' & line & Hw).
    rewrite Haccepts in Hw. discriminate.
Qed.

Lemma download_ffmpeg_raises_only_from_console_witness :
  outcome_of
    (download_ffmpeg (C := Scenes.ascii_console) Sim.windows (Sim.os Nt)
       Scenes.windows_offline)
  = Raise Scenes.unencodable /\
  from_console Scenes.ascii_console Scenes.unencodable.
Proof.
  split; [reflexivity|].
  apply (proj1 (download_ffmpeg_raises_only_from_console _
                  Scenes.ascii_console Sim.windows (Sim.os Nt)
                  Scenes.windows_offline)).
  reflexivity.
Defined.

(** An exception leaves [convert_video] in two ways only: a write to the
    console raises it, or the launch of the version query raises it and it
    is of a class the first [try] of [check_ffmpeg] does not name.  Every
    exception of the download and of the conversion run (launch and
    decoding) is taken by a handler. *)
Theorem convert_video_raises_from_console_or_query
    (W : Type) (C : Console W) (E : env) (O : OS W) (w : W) (p : str)
    (e : exn) :
  outcome_of (convert_video (C := C) E O p w) = Raise e ->
  from_console C e \/
  (fst (os_spawn O w version_query) = Raise e /\
   called_process_or_not_found e = false).
Proof.
  assert (Hreport : forall line, raises_only (from_console C)
            (bind (print (C := C) line) (fun _ => ret false))).
  { intros line. apply raises_only_bind; [apply raises_only_print|].
    intros _. apply raises_only_ret. }
  unfold convert_video. rewrite bind_outcome.
  cbn [path_exists outcome_of state_of fst snd].
  destruct (os_exists O w p); cbn [negb].
  - rewrite bind_outcome. intros H.
    destruct (outcome_of (check_ffmpeg (C := C) E O w)) as [exe|e'] eqn:Hcheck.
    + left. revert H.
      generalize (state_of (check_ffmpeg (C := C) E O w)). intros w1.
      revert w1 e.
      change (raises_only (from_console C)
                (match exe with
                 | Some (c :: exe') =>
                     let out := output_path (path_flavour E) p in
                     bind (print (lit "Converting: " ++ path_basename E p))
                       (fun _ =>
                          bind (print (lit "Output will be: "
                                         ++ path_basename E out))
                            (fun _ =>
                               bind (print (nl ++ lit
                                       "Processing... (this may take a while)"))
                                 (fun _ =>
                                    try_except
                                      (bind
                                         (subprocess_run E O
                                            (command (c :: exe') p out)
                                            false true)
                                         (fun result =>
                                            if fst result =? 0
                                            then
                                              bind (print (nl ++ lit
                                                "✓ Success! Converted video saved as:"))
                                                (fun _ =>
                                                   bind (print (lit "  " ++ out))
                                                     (fun _ => ret true))
                                            else
                                              bind (print (nl ++ lit
                                                "✗ Conversion failed!"))
                                                (fun _ =>
                                                   bind (print (lit
                                                     "Error details:"))
                                                     (fun _ =>
                                                        bind (print (snd result))
                                                          (fun _ => ret false)))))
                                      any_exception
                                      (fun e =>
                                         bind (print (nl ++ lit
                                                 "✗ Error during conversion: "
                                                 ++ exn_str e))
                                           (fun _ => ret false)))))
                 | _ =>
                     bind (print (nl ++ times (lit "!") 60))
                       (fun _ =>
                          bind (print (lit "ERROR: Could not get ffmpeg!"))
                            (fun _ =>
                               bind (print (times (lit "!") 60))
                                 (fun _ => ret false)))
                 end)).
      destruct exe as [[|c exe']|].
      * repeat (apply raises_only_bind; [apply raises_only_print|intros _]).
        apply raises_only_ret.
      * cbn zeta.
        repeat (apply raises_only_bind; [apply raises_only_print|intros _]).
        apply raises_only_try_any. intros e'. apply Hreport.
      * repeat (apply raises_only_bind; [apply raises_only_print|intros _]).
        apply raises_only_ret.
    + injection H as <-. now apply (check_ffmpeg_raises C E O).
  - intros H. left. exact (Hreport _ w e H).
Qed.

Lemma convert_video_raises_from_console_or_query_witness :
  from_console Scenes.ascii_console Scenes.unencodable \/
  (fst (os_spawn (Sim.os Posix) (Sim.linux_with_ffmpeg (Ret (0, [])))
          version_query)
   = Raise Scenes.unencodable /\
   called_process_or_not_found Scenes.unencodable = false).
Proof.
  apply (convert_video_raises_from_console_or_query _ Scenes.ascii_console
           Sim.linux (Sim.os Posix) (Sim.linux_with_ffmpeg (Ret (0, [])))
           (lit "/home/u/a.b/clip.mp4")).
  reflexivity.
Defined.
